(** * The API gateway of cmd/apigateway/main.go

    A shallow embedding of the three hooks that [NewReverseProxy] installs in
    the reverse proxy (the director, the response hook [modifyFunc] and the
    error hook [errFunc]), of the library calls they make, and of the way the
    proxy chains them for one request.

    Go strings and byte slices are sequences of bytes: a Go [string] is a
    [string] here (a list of 8-bit characters) and a [[]byte] is a
    [list byte].  Go's [int] is a [Z]; the only arithmetic the hooks perform
    on it is one remainder and one length, so the places where a Go
    operation can fail at run time (an index out of range, a slice out of
    range, a division by zero, a method call on a [nil] interface) are made
    explicit as panics. *)

From Stdlib Require Import ZArith Ascii String List Lia Bool.
From Stdlib Require Import DecimalString DecimalPos DecimalZ.
From stdpp Require Import gmap strings.
Import ListNotations.

Local Open Scope Z_scope.

(** ** Package [strings] *)

Module strings.

(** [strings.Split(s, sep)] for a separator of one byte, which is the only
    way the gateway calls it ([sep] is the literal "/").  The result has
    one more element than [s] has separators; [cur] is the piece being
    read. *)
Fixpoint split_from (sep : ascii) (cur : string) (s : string) : list string :=
  match s with
  | EmptyString => [cur]
  | String c rest =>
      if Ascii.eqb c sep
      then cur :: split_from sep EmptyString rest
      else split_from sep (cur +:+ String c EmptyString) rest
  end.

Definition Split (s : string) (sep : ascii) : list string :=
  split_from sep EmptyString s.

(** [strings.Join(elems, sep)]. *)
Fixpoint Join (elems : list string) (sep : string) : string :=
  match elems with
  | [] => EmptyString
  | [e] => e
  | e :: rest => e +:+ sep +:+ Join rest sep
  end.

(** Whether the byte [c] occurs in [s]. *)
Fixpoint ContainsByte (s : string) (c : ascii) : bool :=
  match s with
  | EmptyString => false
  | String d rest => Ascii.eqb d c || ContainsByte rest c
  end.

(** Whether [sub] occurs in [s] ([strings.Contains]). *)
Fixpoint Contains (s sub : string) : bool :=
  String.prefix sub s ||
  match s with
  | EmptyString => false
  | String _ rest => Contains rest sub
  end.

End strings.

(** ** Run-time failures and effects *)

(** The run-time panics the hooks can raise. *)
Inductive panic : Type :=
| IndexOutOfRange (i len : Z)     (* [a[i]] with [i] outside [0, len) *)
| SliceOutOfRange (lo len : Z)    (* [a[lo:]] with [lo] outside [0, len] *)
| DivideByZero                    (* [x % 0] *)
| NilDereference.                 (* a method called on a nil interface *)

(** What a hook does to the outside world, in order. *)
Inductive event : Type :=
| Logged (keyvals : list string)        (* [logger.Log(keyvals...)] *)
| Queried (service tag : string)        (* [client.Catalog().Service(service, tag, nil)] *)
| Dialed (scheme host path : string).   (* the transport opened an exchange *)

Inductive result (A : Type) : Type :=
| Done (a : A)
| Panicked (p : panic).
Arguments Done {A} a.
Arguments Panicked {A} p.

(** A computation: the events it emitted, and how it ended. *)
Definition M (A : Type) : Type := (list event * result A)%type.

Definition ret {A} (a : A) : M A := ([], Done a).

Definition raise {A} (p : panic) : M A := ([], Panicked p).

Definition emit (e : event) : M unit := ([e], Done tt).

Definition bind {A B} (m : M A) (k : A -> M B) : M B :=
  match m with
  | (t, Panicked p) => (t, Panicked p)
  | (t, Done a) => let (t', r) := k a in (t ++ t', r)
  end.

Declare Scope go_scope.
Delimit Scope go_scope with go.
Notation "x <- c ;; k" := (bind c (fun x => k))
  (at level 100, c at next level, right associativity) : go_scope.
Notation "c ;; k" := (bind c (fun _ => k))
  (at level 100, right associativity) : go_scope.
Local Open Scope go_scope.

Definition events {A} (m : M A) : list event := fst m.
Definition outcome {A} (m : M A) : result A := snd m.

(** [len(a)]. *)
Definition len {A} (a : list A) : Z := Z.of_nat (length a).

(** [a[i]]: panics unless [0 <= i < len(a)]. *)
Definition index {A} (a : list A) (i : Z) : M A :=
  match (if 0 <=? i then a !! Z.to_nat i else None) with
  | Some x => ret x
  | None => raise (IndexOutOfRange i (len a))
  end.

(** [a[lo:]]: panics unless [0 <= lo <= len(a)]. *)
Definition slice_from {A} (a : list A) (lo : Z) : M (list A) :=
  if (0 <=? lo) && (lo <=? len a)
  then ret (drop (Z.to_nat lo) a)
  else raise (SliceOutOfRange lo (len a)).

(** [x % y] on [int]: the remainder has the sign of [x]; panics when [y] is
    zero. *)
Definition rem (x y : Z) : M Z :=
  if y =? 0 then raise DivideByZero else ret (Z.rem x y).

(** The [error] interface: [nil], or a value whose [Error()] is the text. *)
Definition error : Type := option string.

(** [err.Error()]: a method call on the interface value, which panics when
    the value is [nil]. *)
Definition Error_ (err : error) : M string :=
  match err with
  | Some text => ret text
  | None => raise NilDereference
  end.

(** ** Packages [strconv] and [fmt] *)

Module strconv.

(** [strconv.FormatInt(i, 10)]. *)
Definition FormatInt (i : Z) : string := NilZero.string_of_int (Z.to_int i).

(** The inverse reading of a decimal numeral. *)
Definition ParseInt (s : string) : option Z :=
  option_map Z.of_int (NilZero.int_of_string s).

End strconv.

Module fmt.

(** [fmt.Sprintf("%s:%d", s, d)]. *)
Definition Sprintf_s_colon_d (s : string) (d : Z) : string :=
  s +:+ ":" +:+ strconv.FormatInt d.

End fmt.

(** ** Packages [net/url], [net/http], [io/ioutil] and the Consul [api] *)

(** [h.Set(key, value)] on an [http.Header], a [map[string][]string].  The keys the gateway writes ("X-Real-Ip",
    "Content-Length", "Content-Type", "X-Content-Type-Options") are already
    in canonical MIME form, so [Set] stores under the key as written. *)
Definition Header_Set (h : gmap string (list string)) (key value : string)
  : gmap string (list string) :=
  <[ key := [value] ]> h.

Module url.

Record URL : Type := mkURL {
  Scheme : string;
  Host : string;
  Path : string;
  RawQuery : string
}.

End url.

Module ioutil.

(** A response body, read as a stream: the bytes it still delivers, and the
    error (other than end of file) that ends the stream, if any. *)
Record Body : Type := mkBody {
  pending : list Byte.byte;
  failure : error
}.

(** [ioutil.ReadAll(b)]: everything read before the stream ended, the error
    that ended it ([nil] at end of file), and the drained reader. *)
Definition ReadAll (b : Body) : list Byte.byte * error * Body :=
  (pending b, failure b, mkBody [] (failure b)).

(** [ioutil.NopCloser(bytes.NewBuffer(p))]. *)
Definition NopCloser_NewBuffer (p : list Byte.byte) : Body := mkBody p None.

End ioutil.

Module api.

(** The fields of [api.CatalogService] the gateway reads. *)
Record CatalogService : Type := mkCatalogService {
  ServiceID : string;
  ServiceAddress : string;
  ServicePort : Z
}.

(** What [client.Catalog().Service(name, tag, nil)] returns, without the
    query metadata (which the gateway discards): the instances and the
    error. *)
Definition Client : Type := string -> string -> list CatalogService * error.

End api.

Module http.

Record Request : Type := mkRequest {
  Method : string;
  URL : url.URL;
  Header : gmap string (list string);
  RemoteAddr : string
}.

(** [ResponseHeader] is the field [Header] of [http.Response]. *)
Record Response : Type := mkResponse {
  StatusCode : Z;
  Body : ioutil.Body;
  ContentLength : Z;
  ResponseHeader : gmap string (list string)
}.

(** What an [http.ResponseWriter] has been told so far: the header map, the
    status line once written, and the body bytes. *)
Record ResponseWriter : Type := mkResponseWriter {
  wHeader : gmap string (list string);
  wStatus : option Z;
  wBody : string
}.

(** The writer a handler receives: nothing written yet. *)
Definition NewResponseWriter : ResponseWriter := mkResponseWriter ∅ None "".

(** [w.WriteHeader(code)]: only the first call counts. *)
Definition WriteHeader (w : ResponseWriter) (code : Z) : ResponseWriter :=
  match wStatus w with
  | Some _ => w
  | None => mkResponseWriter (wHeader w) (Some code) (wBody w)
  end.

(** [w.Write(p)]: writes the status line 200 first if none was written. *)
Definition Write (w : ResponseWriter) (p : string) : ResponseWriter :=
  let w := WriteHeader w 200 in
  mkResponseWriter (wHeader w) (wStatus w) (wBody w +:+ p).

(** [http.Error(w, error, code)]: a plain-text reply, the message followed
    by a newline. *)
Definition Error (w : ResponseWriter) (error : string) (code : Z) : ResponseWriter :=
  let h := Header_Set (wHeader w) "Content-Type" "text/plain; charset=utf-8" in
  let h := Header_Set h "X-Content-Type-Options" "nosniff" in
  let w := mkResponseWriter h (wStatus w) (wBody w) in
  let w := WriteHeader w code in
  Write w (error +:+ String "010" EmptyString).

End http.

(** ** [NewReverseProxy]: the three hooks *)

(** [err != nil]. *)
Definition not_nil (err : error) : bool :=
  match err with
  | Some _ => true
  | None => false
  end.

Section NewReverseProxy.

(** The Consul client the hooks close over. *)
Variable client : api.Client.

(** The value the call of [rand.Int()] in the director returns; the
    library promises a non-negative number. *)
Variable rand_Int : Z.

Definition Log (keyvals : list string) : M unit := emit (Logged keyvals).

Definition Catalog_Service (q tag : string) : M (list api.CatalogService * error) :=
  emit (Queried q tag) ;; ret (client q tag).

(** The director (main.go, lines 90-132).  The request is a pointer in Go;
    here the director returns the request as it leaves it. *)
Definition director (r : http.Request) : M http.Request :=
  let reqPath := url.Path (http.URL r) in
  Log ["request Path:"; reqPath] ;;
  if String.eqb reqPath "" then ret r else
  let pathArray := strings.Split reqPath "/" in
  serviceName <- index pathArray 1 ;;
  Log ["serviceName:"; serviceName] ;;
  answer <- Catalog_Service serviceName "" ;;
  let (result, err) := answer in
  if not_nil err then
    text <- Error_ err ;;
    Log ["reverseProxy failed"; "query service instance error"; text] ;;
    ret r
  else if len result =? 0 then
    Log ["reverseProxy failed"; "no such service instance"; serviceName] ;;
    ret r
  else
    tail <- slice_from pathArray 2 ;;
    let destPath := strings.Join tail "/" in
    i <- rem rand_Int (len result) ;;
    tgt <- index result i ;;
    Log ["service id"; api.ServiceID tgt] ;;
    let u := url.mkURL
               "http"
               (fmt.Sprintf_s_colon_d (api.ServiceAddress tgt) (api.ServicePort tgt))
               ("/" +:+ destPath)
               (url.RawQuery (http.URL r)) in
    ret (http.mkRequest (http.Method r) u
           (Header_Set (http.Header r) "X-Real-Ip" (http.RemoteAddr r))
           (http.RemoteAddr r)).

(** The condition of the response hook (line 137). *)
Definition status_condition (StatusCode : Z) : bool :=
  negb (StatusCode =? 200) || negb (StatusCode =? 201)
  || negb (StatusCode =? 203) || negb (StatusCode =? 204).

(** The branch the condition guards (lines 138-149): the response as the
    branch leaves it, and the error [modifyFunc] returns.  The conversions
    between [[]byte] and [string] keep the bytes, and [int64(len(p))] is
    [len p], since the conversion from [int] to [int64] is exact. *)
Definition rewrite_branch (resp : http.Response) : http.Response * error :=
  let '(oldPayload, err, drained) := ioutil.ReadAll (http.Body resp) in
  if not_nil err then
    (http.mkResponse (http.StatusCode resp) drained
       (http.ContentLength resp) (http.ResponseHeader resp), err)
  else
    let newPayload :=
      list_byte_of_string ("" +:+ string_of_list_byte oldPayload) in
    (http.mkResponse (http.StatusCode resp)
       (ioutil.NopCloser_NewBuffer newPayload)
       (len newPayload)
       (Header_Set (http.ResponseHeader resp) "Content-Length"
          (strconv.FormatInt (len newPayload))),
     None).

(** The response hook (lines 135-152). *)
Definition modifyFunc (resp : http.Response) : http.Response * error :=
  if status_condition (http.StatusCode resp)
  then rewrite_branch resp
  else (resp, None).

(** The error hook (lines 154-178).  The short declaration
    [result, _, err := ...] on line 166 stands in the function's own block,
    where the parameter [err] already lives: it declares [result] and
    assigns to that [err], which from there on holds the registry's error
    and no longer the error of the exchange. *)
Definition errFunc (w : http.ResponseWriter) (r : http.Request) (err : error)
  : M http.ResponseWriter :=
  let reqPath := url.Path (http.URL r) in
  if String.eqb reqPath "" then ret w else
  let pathArray := strings.Split reqPath "/" in
  serviceName <- index pathArray 1 ;;
  answer <- Catalog_Service serviceName "" ;;
  let (result, err) := answer in
  if not_nil err then
    text <- Error_ err ;;
    Log ["reverseProxy failed"; "query service instance error"; text] ;;
    ret w
  else if len result =? 0 then
    ret (http.Error w (serviceName +:+ " Not Found") 404)
  else
    text <- Error_ err ;;
    ret (http.Error w ("" +:+ text) 500).

End NewReverseProxy.

(** ** One request through the proxy *)

Section ServeHTTP.

(** The catalog as it answers when the director asks, and as it answers
    when the error hook asks again. *)
Variables at_routing at_error : api.Client.

Variable rand_Int : Z.

(** The backend behind an address: the response to a request that reached
    it, or the text of the error that broke the exchange. *)
Variable backend : http.Request -> http.Response + string.

(** [strconv.Quote], used only in the text of a transport error. *)
Variable Quote : string -> string.

(** [transport.RoundTrip(r)] of the [http.Transport] of lines 75-84, as
    package net/http implements it: the transport refuses a URL whose scheme
    is neither http nor https, or whose host is empty, before it dials;
    otherwise it opens the exchange with the host of the URL. *)
Definition RoundTrip (r : http.Request) : M (http.Response + string) :=
  let scheme := url.Scheme (http.URL r) in
  if negb (String.eqb scheme "http" || String.eqb scheme "https") then
    ret (inr ("unsupported protocol scheme " +:+ Quote scheme))
  else if String.eqb (url.Host (http.URL r)) "" then
    ret (inr "http: no Host in request URL")
  else
    emit (Dialed scheme (url.Host (http.URL r)) (url.Path (http.URL r))) ;;
    ret (backend r).

(** The reply for a backend response the response hook let through: its
    header, its status and its body. *)
Definition copyResponse (rw : http.ResponseWriter) (res : http.Response)
  : http.ResponseWriter :=
  let rw := http.mkResponseWriter
              (union_with (fun old new => Some (old ++ new))
                 (http.wHeader rw) (http.ResponseHeader res))
              (http.wStatus rw) (http.wBody rw) in
  let rw := http.WriteHeader rw (http.StatusCode res) in
  http.Write rw (string_of_list_byte (ioutil.pending (http.Body res))).

(** [ServeHTTP] of the [httputil.ReverseProxy] that [NewReverseProxy]
    returns (lines 180-185), with the hooks in the order the proxy calls
    them: the director on the outgoing copy of the request, the transport,
    then the response hook, and the error hook when the transport or the
    response hook fails.  The director has no result: whatever it leaves in
    the request goes to the transport.  The housekeeping the proxy does on
    headers between these steps (hop-by-hop headers, X-Forwarded-For) and
    its handling of protocol upgrades are left out. *)
Definition ServeHTTP (rw : http.ResponseWriter) (req : http.Request)
  : M http.ResponseWriter :=
  outreq <- director at_routing rand_Int req ;;
  exchanged <- RoundTrip outreq ;;
  match exchanged with
  | inr text => errFunc at_error rw outreq (Some text)
  | inl res =>
      let (res, err) := modifyFunc res in
      if not_nil err then errFunc at_error rw outreq err
      else ret (copyResponse rw res)
  end.

End ServeHTTP.

(** Whether the transport opened an exchange with some backend. *)
Definition dialed (t : list event) : bool :=
  existsb (fun e => match e with Dialed _ _ _ => true | _ => false end) t.

(** Whether the registry was asked. *)
Definition queried (t : list event) : bool :=
  existsb (fun e => match e with Queried _ _ => true | _ => false end) t.

(** ** Vocabulary of the statements *)

(** The service identifier a path names: the second piece of the path split
    on "/", when there is one. *)
Definition serviceNameOf (reqPath : string) : option string :=
  strings.Split reqPath "/" !! 1%nat.

(** A computation that opens no exchange. *)
Definition no_dial {A} (m : M A) : Prop := dialed (events m) = false.

(** ** Sample inputs *)

(** A registry that lists one instance of the service orders and nothing
    else. *)
Definition orders_registry : api.Client :=
  fun service _ =>
    if String.eqb service "orders"
    then ([api.mkCatalogService "i1" "10.0.0.5" 9090], None)
    else ([], None).

(** A request as the server parses it from a request line that carries only
    a path: the URL has no scheme and no host. *)
Definition get (path : string) : http.Request :=
  http.mkRequest "GET" (url.mkURL "" "" path "") ∅ "192.0.2.7:51000".

(** A registry that cannot be reached. *)
Definition unreachable_registry : api.Client :=
  fun _ _ => ([], Some "connection refused").

(** A backend that breaks every exchange. *)
Definition refusing_backend : http.Request -> http.Response + string :=
  fun _ => inr "connection reset by peer".

(** A request as the server parses it from a request line that carries an
    absolute URL, as in GET http://host/path. *)
Definition get_absolute (host path : string) : http.Request :=
  http.mkRequest "GET" (url.mkURL "http" host path "") ∅ "192.0.2.7:51000".

(** A 200 response with a five-byte body and a stale length. *)
Definition ok_hello : http.Response :=
  http.mkResponse 200
    (ioutil.mkBody (list_byte_of_string "hello") None) 999 ∅.

(** ** Vocabulary for the effects of a run *)

Definition is_Logged (e : event) : bool :=
  match e with Logged _ => true | _ => false end.

(** A registry query without tag filter. *)
Definition is_untagged_query (e : event) : bool :=
  match e with Queried _ tag => String.eqb tag "" | _ => false end.

(** How often the registry was asked, and how many exchanges were opened. *)
Definition queries (t : list event) : nat :=
  length (List.filter
            (fun e => match e with Queried _ _ => true | _ => false end) t).

Definition dials (t : list event) : nat :=
  length (List.filter
            (fun e => match e with Dialed _ _ _ => true | _ => false end) t).

(** A computation all of whose events satisfy [P]. *)
Definition only (P : event -> bool) {A} (m : M A) : Prop :=
  forallb P (events m) = true.

(** The request the director leaves when it routes [r] to the instance
    [tgt], with [tail] the pieces of the path after the service name
    (lines 125-131). *)
Definition routed (r : http.Request) (tgt : api.CatalogService)
    (tail : list string) : http.Request :=
  http.mkRequest (http.Method r)
    (url.mkURL "http"
       (fmt.Sprintf_s_colon_d (api.ServiceAddress tgt) (api.ServicePort tgt))
       ("/" +:+ strings.Join tail "/")
       (url.RawQuery (http.URL r)))
    (Header_Set (http.Header r) "X-Real-Ip" (http.RemoteAddr r))
    (http.RemoteAddr r).

(** A registry that knows no service at all. *)
Definition empty_registry : api.Client := fun _ _ => ([], None).

(** A backend that answers every request with [ok_hello]. *)
Definition hello_backend : http.Request -> http.Response + string :=
  fun _ => inl ok_hello.

(** A response whose body breaks after two bytes. *)
Definition broken_body : http.Response :=
  http.mkResponse 502
    (ioutil.mkBody (list_byte_of_string "ab") (Some "unexpected EOF")) 7
    {[ "Content-Length" := ["7"] ]}.

(** A request that already carries a provenance header and a query. *)
Definition get_spoofed (path : string) : http.Request :=
  http.mkRequest "GET" (url.mkURL "" "" path "page=2")
    {[ "X-Real-Ip" := ["6.6.6.6"]; "Accept" := ["*/*"] ]}
    "192.0.2.7:51000".

(** * Facts about the library functions *)

(** ** Sample runs of the library functions *)

Example split_orders :
  strings.Split "/orders/123/items" "/" = [""; "orders"; "123"; "items"].
Proof. reflexivity. Qed.

Example split_root : strings.Split "/" "/" = [""; ""].
Proof. reflexivity. Qed.

Example split_empty : strings.Split "" "/" = [""].
Proof. reflexivity. Qed.

Example split_no_slash : strings.Split "orders" "/" = ["orders"].
Proof. reflexivity. Qed.

Example format_9090 : strconv.FormatInt 9090 = "9090".
Proof. reflexivity. Qed.

Example format_0 : strconv.FormatInt 0 = "0".
Proof. reflexivity. Qed.

Section StringFacts.

Lemma append_nil_l (s : string) : "" +:+ s = s.
Proof. reflexivity. Qed.

Lemma append_cons (c : ascii) (s t : string) :
  String c s +:+ t = String c (s +:+ t).
Proof. reflexivity. Qed.

Lemma append_nil_r (s : string) : s +:+ "" = s.
Proof.
  induction s as [|c s IH]; [reflexivity |].
  now rewrite append_cons, IH.
Qed.

Lemma append_assoc (a b c : string) : (a +:+ b) +:+ c = a +:+ (b +:+ c).
Proof.
  induction a as [|x a IH]; [reflexivity |].
  now rewrite !append_cons, IH.
Qed.

Lemma append_snoc (a b : string) (c : ascii) :
  (a +:+ String c "") +:+ b = a +:+ String c b.
Proof. now rewrite append_assoc. Qed.

Lemma ContainsByte_append (a b : string) (c : ascii) :
  strings.ContainsByte (a +:+ b) c
  = strings.ContainsByte a c || strings.ContainsByte b c.
Proof.
  induction a as [|x a IH]; [reflexivity |].
  rewrite append_cons. simpl. now rewrite IH, orb_assoc.
Qed.

Lemma prefix_append (a b : string) : String.prefix a (a +:+ b) = true.
Proof.
  induction a as [|x a IH].
  - now destruct b.
  - rewrite append_cons. simpl.
    destruct (ascii_dec x x) as [_|Hx]; [exact IH | now destruct Hx].
Qed.

Lemma Contains_eq (s sub : string) :
  strings.Contains s sub
  = String.prefix sub s
    || match s with
       | EmptyString => false
       | String _ rest => strings.Contains rest sub
       end.
Proof. destruct s; reflexivity. Qed.

Lemma Contains_prefix (a b : string) : strings.Contains (a +:+ b) a = true.
Proof. now rewrite Contains_eq, prefix_append. Qed.

Lemma Contains_skip (c : ascii) (s sub : string) :
  strings.Contains s sub = true -> strings.Contains (String c s) sub = true.
Proof. intros H. rewrite Contains_eq, H. apply orb_true_r. Qed.

Lemma Contains_append_l (a s sub : string) :
  strings.Contains s sub = true -> strings.Contains (a +:+ s) sub = true.
Proof.
  intros H. induction a as [|c a IH]; [exact H |].
  rewrite append_cons. now apply Contains_skip.
Qed.

End StringFacts.

Section SplitFacts.

Variable sep : ascii.

Lemma split_from_not_nil (cur s : string) : strings.split_from sep cur s <> [].
Proof.
  revert cur. induction s as [|c s IH]; intros cur; simpl; [discriminate |].
  destruct (Ascii.eqb c sep); [discriminate | apply IH].
Qed.

(** A string without the separator is one piece. *)
Lemma split_from_one_piece (cur s : string) :
  strings.ContainsByte s sep = false ->
  strings.split_from sep cur s = [cur +:+ s].
Proof.
  revert cur. induction s as [|c s IH]; intros cur H; simpl in *.
  - now rewrite append_nil_r.
  - apply orb_false_iff in H as [Hc Hs]. rewrite Hc.
    rewrite (IH _ Hs). now rewrite append_snoc.
Qed.

(** The first separator ends the first piece. *)
Lemma split_from_first_piece (cur a b : string) :
  strings.ContainsByte a sep = false ->
  strings.split_from sep cur (a +:+ String sep b)
  = (cur +:+ a) :: strings.split_from sep "" b.
Proof.
  revert cur. induction a as [|c a IH]; intros cur H.
  - rewrite append_nil_l. simpl. rewrite Ascii.eqb_refl.
    now rewrite append_nil_r.
  - rewrite append_cons. simpl in *.
    apply orb_false_iff in H as [Hc Ha]. rewrite Hc.
    rewrite (IH _ Ha). now rewrite append_snoc.
Qed.

(** A string with a separator has at least two pieces. *)
Lemma split_from_two_pieces (cur s : string) :
  strings.ContainsByte s sep = true ->
  exists first second rest,
    strings.split_from sep cur s = first :: second :: rest.
Proof.
  revert cur. induction s as [|c s IH]; intros cur H; simpl in *; [discriminate |].
  destruct (Ascii.eqb c sep).
  - destruct (strings.split_from sep "" s) as [|second rest] eqn:E.
    + now apply split_from_not_nil in E.
    + now exists cur, second, rest.
  - apply IH. exact H.
Qed.

Lemma Join_cons (e : string) (l : list string) (s : string) :
  l <> [] -> strings.Join (e :: l) s = e +:+ s +:+ strings.Join l s.
Proof. destruct l; [congruence | reflexivity]. Qed.

(** Joining the pieces with the separator gives the string back. *)
Lemma Join_split_from (cur s : string) :
  strings.Join (strings.split_from sep cur s) (String sep "") = cur +:+ s.
Proof.
  revert cur. induction s as [|c s IH]; intros cur; simpl.
  - now rewrite append_nil_r.
  - destruct (Ascii.eqb_spec c sep) as [->|_].
    + rewrite Join_cons by apply split_from_not_nil.
      rewrite IH. reflexivity.
    + rewrite IH. now rewrite append_snoc.
Qed.

Lemma Join_Split (s : string) :
  strings.Join (strings.Split s sep) (String sep "") = s.
Proof. unfold strings.Split. now rewrite Join_split_from. Qed.

End SplitFacts.

(** * The hooks, case by case *)

Lemma index_in_range {A} (a : list A) (i : nat) (x : A) :
  a !! i = Some x -> index a (Z.of_nat i) = ret x.
Proof.
  intros H. unfold index.
  destruct (Z.leb_spec 0 (Z.of_nat i)); [| lia].
  now rewrite Nat2Z.id, H.
Qed.

Lemma index_out_of_range {A} (a : list A) (i : nat) :
  a !! i = None -> index a (Z.of_nat i) = raise (IndexOutOfRange (Z.of_nat i) (len a)).
Proof.
  intros H. unfold index.
  destruct (Z.leb_spec 0 (Z.of_nat i)); [| lia].
  now rewrite Nat2Z.id, H.
Qed.

Lemma index_1_in_range {A} (a : list A) (x : A) :
  a !! 1%nat = Some x -> index a 1 = ret x.
Proof. exact (index_in_range a 1 x). Qed.

Lemma index_1_out_of_range {A} (a : list A) :
  a !! 1%nat = None -> index a 1 = raise (IndexOutOfRange 1 (len a)).
Proof. exact (index_out_of_range a 1). Qed.

Lemma len_nil_iff {A} (a : list A) : (len a =? 0) = true <-> a = [].
Proof.
  unfold len. destruct a; simpl; split; intros H;
    reflexivity || discriminate.
Qed.

Lemma len_pos {A} (a : list A) : a <> [] -> (len a =? 0) = false.
Proof.
  intros H. apply not_true_iff_false. intros E. now apply len_nil_iff in E.
Qed.

Lemma slice_from_2 {A} (a b : A) (t : list A) :
  slice_from (a :: b :: t) 2 = ret t.
Proof.
  unfold slice_from.
  destruct (Z.leb_spec 2 (len (a :: b :: t))) as [_|H]; [reflexivity |].
  unfold len in H. simpl length in H. lia.
Qed.

Ltac run :=
  unfold Log, Catalog_Service, emit, ret, raise, bind, Error_, not_nil; simpl.

Section DirectorCases.

Variable client : api.Client.
Variable rand_Int : Z.
Variable r : http.Request.

Let reqPath := url.Path (http.URL r).

(** Line 96: an empty path ends the director after its first log record. *)
Lemma director_empty_path :
  reqPath = "" ->
  director client rand_Int r = ([Logged ["request Path:"; ""]], Done r).
Proof.
  unfold reqPath. intros H. unfold director. rewrite H. reflexivity.
Qed.

(** Line 102: a path in one piece makes the index expression panic. *)
Lemma director_one_piece :
  reqPath <> "" ->
  serviceNameOf reqPath = None ->
  director client rand_Int r
  = ([Logged ["request Path:"; reqPath]],
     Panicked (IndexOutOfRange 1 (len (strings.Split reqPath "/")))).
Proof.
  unfold reqPath, serviceNameOf. intros Hne Hsvc. unfold director.
  destruct (String.eqb_spec (url.Path (http.URL r)) ""); [contradiction |].
  rewrite (index_1_out_of_range _ Hsvc). reflexivity.
Qed.

(** Lines 107-110: the registry call failed. *)
Lemma director_registry_error (serviceName text : string)
    (result : list api.CatalogService) :
  reqPath <> "" ->
  serviceNameOf reqPath = Some serviceName ->
  client serviceName "" = (result, Some text) ->
  director client rand_Int r
  = ([Logged ["request Path:"; reqPath];
      Logged ["serviceName:"; serviceName];
      Queried serviceName "";
      Logged ["reverseProxy failed"; "query service instance error"; text]],
     Done r).
Proof.
  unfold reqPath, serviceNameOf. intros Hne Hsvc Hc. unfold director.
  destruct (String.eqb_spec (url.Path (http.URL r)) ""); [contradiction |].
  rewrite (index_1_in_range _ _ Hsvc). run. rewrite Hc. reflexivity.
Qed.

(** Lines 112-115: the registry knows no instance. *)
Lemma director_no_instance (serviceName : string) :
  reqPath <> "" ->
  serviceNameOf reqPath = Some serviceName ->
  client serviceName "" = ([], None) ->
  director client rand_Int r
  = ([Logged ["request Path:"; reqPath];
      Logged ["serviceName:"; serviceName];
      Queried serviceName "";
      Logged ["reverseProxy failed"; "no such service instance"; serviceName]],
     Done r).
Proof.
  unfold reqPath, serviceNameOf. intros Hne Hsvc Hc. unfold director.
  destruct (String.eqb_spec (url.Path (http.URL r)) ""); [contradiction |].
  rewrite (index_1_in_range _ _ Hsvc). run. rewrite Hc. reflexivity.
Qed.

(** Lines 117-131: the request is rewritten for the instance chosen. *)
Lemma director_routes (first serviceName : string) (tail : list string)
    (result : list api.CatalogService) (tgt : api.CatalogService) :
  reqPath <> "" ->
  strings.Split reqPath "/" = first :: serviceName :: tail ->
  client serviceName "" = (result, None) ->
  0 <= Z.rem rand_Int (len result) ->
  result !! Z.to_nat (Z.rem rand_Int (len result)) = Some tgt ->
  director client rand_Int r
  = ([Logged ["request Path:"; reqPath];
      Logged ["serviceName:"; serviceName];
      Queried serviceName "";
      Logged ["service id"; api.ServiceID tgt]],
     Done (http.mkRequest (http.Method r)
             (url.mkURL "http"
                (fmt.Sprintf_s_colon_d (api.ServiceAddress tgt) (api.ServicePort tgt))
                ("/" +:+ strings.Join tail "/")
                (url.RawQuery (http.URL r)))
             (Header_Set (http.Header r) "X-Real-Ip" (http.RemoteAddr r))
             (http.RemoteAddr r))).
Proof.
  unfold reqPath. intros Hne Hsplit Hc Hrand Htgt. unfold director.
  destruct (String.eqb_spec (url.Path (http.URL r)) ""); [contradiction |].
  rewrite Hsplit, slice_from_2.
  assert (Hres : result <> []) by (intros ->; discriminate).
  run. rewrite Hc. simpl. rewrite (len_pos _ Hres).
  unfold rem, index. rewrite (len_pos _ Hres). simpl.
  destruct (Z.leb_spec 0 (Z.rem rand_Int (len result))); [| lia].
  rewrite Htgt. reflexivity.
Qed.

End DirectorCases.

Lemma serviceNameOf_pieces (reqPath serviceName : string) :
  serviceNameOf reqPath = Some serviceName ->
  exists first,
    strings.Split reqPath "/"
    = first :: serviceName :: drop 2 (strings.Split reqPath "/").
Proof.
  unfold serviceNameOf. intros H.
  destruct (strings.Split reqPath "/") as [|first [|second tail]];
    try discriminate.
  injection H as ->. now exists first.
Qed.

Lemma serviceNameOf_nonempty (reqPath serviceName : string) :
  serviceNameOf reqPath = Some serviceName -> reqPath <> "".
Proof. intros H ->. discriminate. Qed.

(** The service identifier exists exactly when the path has a "/". *)
Lemma serviceNameOf_Some (reqPath : string) :
  strings.ContainsByte reqPath "/" = true ->
  exists serviceName, serviceNameOf reqPath = Some serviceName.
Proof.
  intros H. unfold serviceNameOf, strings.Split.
  destruct (split_from_two_pieces "/" "" reqPath H) as (first & second & rest & ->).
  now exists second.
Qed.

Lemma serviceNameOf_None (reqPath : string) :
  strings.ContainsByte reqPath "/" = false ->
  strings.Split reqPath "/" = [reqPath] /\ serviceNameOf reqPath = None.
Proof.
  intros H. unfold serviceNameOf, strings.Split.
  rewrite (split_from_one_piece "/" "" reqPath H). now split.
Qed.

Section ErrFuncCases.

Variable client : api.Client.
Variable w : http.ResponseWriter.
Variable r : http.Request.
Variable err : error.

Let reqPath := url.Path (http.URL r).

(** Line 158. *)
Lemma errFunc_empty_path :
  reqPath = "" -> errFunc client w r err = ([], Done w).
Proof.
  unfold reqPath. intros H. unfold errFunc. now rewrite H.
Qed.

(** Line 164. *)
Lemma errFunc_one_piece :
  reqPath <> "" ->
  serviceNameOf reqPath = None ->
  errFunc client w r err
  = ([], Panicked (IndexOutOfRange 1 (len (strings.Split reqPath "/")))).
Proof.
  unfold reqPath, serviceNameOf. intros Hne Hsvc. unfold errFunc.
  destruct (String.eqb_spec (url.Path (http.URL r)) ""); [contradiction |].
  now rewrite (index_1_out_of_range _ Hsvc).
Qed.

(** Lines 167-170: the second registry call failed; nothing is written. *)
Lemma errFunc_registry_error (serviceName text : string)
    (result : list api.CatalogService) :
  serviceNameOf reqPath = Some serviceName ->
  client serviceName "" = (result, Some text) ->
  errFunc client w r err
  = ([Queried serviceName "";
      Logged ["reverseProxy failed"; "query service instance error"; text]],
     Done w).
Proof.
  intros Hsvc Hc. pose proof (serviceNameOf_nonempty _ _ Hsvc) as Hne.
  unfold reqPath, serviceNameOf in *. unfold errFunc.
  destruct (String.eqb_spec (url.Path (http.URL r)) ""); [contradiction |].
  rewrite (index_1_in_range _ _ Hsvc). run. rewrite Hc. reflexivity.
Qed.

(** Lines 172-175: the registry knows no instance. *)
Lemma errFunc_no_instance (serviceName : string) :
  serviceNameOf reqPath = Some serviceName ->
  client serviceName "" = ([], None) ->
  errFunc client w r err
  = ([Queried serviceName ""],
     Done (http.Error w (serviceName +:+ " Not Found") 404)).
Proof.
  intros Hsvc Hc. pose proof (serviceNameOf_nonempty _ _ Hsvc) as Hne.
  unfold reqPath, serviceNameOf in *. unfold errFunc.
  destruct (String.eqb_spec (url.Path (http.URL r)) ""); [contradiction |].
  rewrite (index_1_in_range _ _ Hsvc). run. rewrite Hc. reflexivity.
Qed.

(** Line 177: instances exist; [err] is the [nil] error of the registry
    call, and [err.Error()] panics before anything is written. *)
Lemma errFunc_instances (serviceName : string)
    (result : list api.CatalogService) :
  serviceNameOf reqPath = Some serviceName ->
  client serviceName "" = (result, None) ->
  result <> [] ->
  errFunc client w r err = ([Queried serviceName ""], Panicked NilDereference).
Proof.
  intros Hsvc Hc Hres. pose proof (serviceNameOf_nonempty _ _ Hsvc) as Hne.
  unfold reqPath, serviceNameOf in *. unfold errFunc.
  destruct (String.eqb_spec (url.Path (http.URL r)) ""); [contradiction |].
  rewrite (index_1_in_range _ _ Hsvc). run. rewrite Hc. simpl.
  now rewrite (len_pos _ Hres).
Qed.

End ErrFuncCases.

(** [http.Error] on a writer whose status line is still unwritten. *)
Lemma Error_status (w : http.ResponseWriter) (msg : string) (code : Z) :
  http.wStatus w = None ->
  http.wStatus (http.Error w msg code) = Some code.
Proof. intros H. unfold http.Error, http.Write, http.WriteHeader. simpl. now rewrite H. Qed.

Lemma Error_body (w : http.ResponseWriter) (msg : string) (code : Z) :
  http.wBody (http.Error w msg code)
  = http.wBody w +:+ msg +:+ String "010" "".
Proof.
  unfold http.Error, http.Write, http.WriteHeader. simpl.
  destruct (http.wStatus w); reflexivity.
Qed.

(** The response hook: the condition of line 137 never fails. *)
Lemma status_condition_true (StatusCode : Z) : status_condition StatusCode = true.
Proof.
  unfold status_condition.
  destruct (Z.eqb_spec StatusCode 200) as [->|_]; reflexivity.
Qed.

(** A decimal numeral written by [FormatInt] reads back as the number. *)
Lemma ParseInt_FormatInt (i : Z) : strconv.ParseInt (strconv.FormatInt i) = Some i.
Proof.
  unfold strconv.ParseInt, strconv.FormatInt.
  rewrite NilZero.isi.
  - simpl. now rewrite DecimalZ.of_to.
  - destruct i; simpl; intros [= H]; now apply Unsigned.to_uint_nonnil in H.
  - destruct i; simpl; intros [= H]; now apply Unsigned.to_uint_nonnil in H.
Qed.

(** The rewrite branch on a body that reads to its end. *)
Lemma rewrite_branch_readable (resp : http.Response) :
  ioutil.failure (http.Body resp) = None ->
  rewrite_branch resp
  = (http.mkResponse (http.StatusCode resp)
       (ioutil.mkBody (ioutil.pending (http.Body resp)) None)
       (len (ioutil.pending (http.Body resp)))
       (Header_Set (http.ResponseHeader resp) "Content-Length"
          (strconv.FormatInt (len (ioutil.pending (http.Body resp))))),
     None).
Proof.
  intros H. unfold rewrite_branch, ioutil.ReadAll, ioutil.NopCloser_NewBuffer.
  rewrite H. simpl. rewrite append_nil_l.
  now rewrite list_byte_of_string_of_list_byte.
Qed.

(** The rewrite branch on a body whose stream breaks. *)
Lemma rewrite_branch_unreadable (resp : http.Response) (text : string) :
  ioutil.failure (http.Body resp) = Some text ->
  snd (rewrite_branch resp) = Some text.
Proof.
  intros H. unfold rewrite_branch, ioutil.ReadAll. now rewrite H.
Qed.

(** The scenario of the specification: GET /orders/123/items. *)
Example director_orders_items :
  outcome (director orders_registry 4711 (get "/orders/123/items"))
  = Done (http.mkRequest "GET"
            (url.mkURL "http" "10.0.0.5:9090" "/123/items" "")
            {[ "X-Real-Ip" := ["192.0.2.7:51000"] ]}
            "192.0.2.7:51000").
Proof. reflexivity. Qed.

(** * The properties of the specification *)

(** The pieces of a path of the form /svc/rest. *)
Lemma Split_service_path (svc rest : string) :
  strings.ContainsByte svc "/" = false ->
  strings.Split ("/" +:+ svc +:+ "/" +:+ rest) "/"
  = "" :: svc :: strings.Split rest "/".
Proof.
  intros Hsvc. unfold strings.Split.
  change ("/" +:+ svc +:+ "/" +:+ rest) with (String "/" (svc +:+ String "/" rest)).
  change (strings.split_from "/" "" (String "/" (svc +:+ String "/" rest)))
    with ("" :: strings.split_from "/" "" (svc +:+ String "/" rest)).
  now rewrite (split_from_first_piece "/" "" svc rest Hsvc).
Qed.

Lemma rem_index_in_range {A} (n : Z) (a : list A) :
  a <> [] -> 0 <= n ->
  0 <= Z.rem n (len a) /\ is_Some (a !! Z.to_nat (Z.rem n (len a))).
Proof.
  intros Ha Hn.
  assert (Hlen : 0 < len a).
  { unfold len. destruct a; [congruence | simpl length; lia]. }
  pose proof (Z.rem_bound_pos n (len a) Hn Hlen) as [Hlo Hhi].
  split; [exact Hlo |].
  apply lookup_lt_is_Some_2. unfold len in *. lia.
Qed.

(** C1. For a request whose path is /svc/rest, when the registry answers the
    lookup of svc with at least one instance, the director leaves the
    request with the scheme http, with the host address:port of one of the
    instances returned, and with the path "/" followed by the pieces after
    svc joined with "/", which is /rest; the method is untouched. *)
Theorem C1_director_rewrites_request
    (client : api.Client) (rand_Int : Z) (r : http.Request)
    (svc rest : string) (result : list api.CatalogService) :
  url.Path (http.URL r) = "/" +:+ svc +:+ "/" +:+ rest ->
  strings.ContainsByte svc "/" = false ->
  client svc "" = (result, None) ->
  result <> [] ->
  0 <= rand_Int ->
  exists tgt r',
    In tgt result /\
    outcome (director client rand_Int r) = Done r' /\
    http.Method r' = http.Method r /\
    url.Scheme (http.URL r') = "http" /\
    url.Host (http.URL r')
    = api.ServiceAddress tgt +:+ ":" +:+ strconv.FormatInt (api.ServicePort tgt) /\
    url.Path (http.URL r')
    = "/" +:+ strings.Join (drop 2 (strings.Split (url.Path (http.URL r)) "/")) "/" /\
    url.Path (http.URL r') = "/" +:+ rest.
Proof.
  intros Hpath Hsvc Hc Hres Hrand.
  pose proof (Split_service_path svc rest Hsvc) as Hsplit.
  rewrite <- Hpath in Hsplit.
  destruct (rem_index_in_range rand_Int result Hres Hrand) as [Hlo [tgt Htgt]].
  assert (Hne : url.Path (http.URL r) <> "") by (rewrite Hpath; discriminate).
  exists tgt. eexists. split; [| split].
  - apply list_elem_of_In. eapply list_elem_of_lookup_2. exact Htgt.
  - rewrite (director_routes client rand_Int r "" svc _ result tgt
               Hne Hsplit Hc Hlo Htgt).
    reflexivity.
  - simpl. rewrite Hsplit. simpl drop. rewrite drop_0.
    rewrite (Join_Split "/" rest). repeat split; reflexivity.
Qed.

Lemma C1_witness :
  exists tgt r',
    In tgt [api.mkCatalogService "i1" "10.0.0.5" 9090] /\
    outcome (director orders_registry 4711 (get "/orders/123/items")) = Done r' /\
    http.Method r' = "GET" /\
    url.Scheme (http.URL r') = "http" /\
    url.Host (http.URL r') = api.ServiceAddress tgt +:+ ":" +:+ strconv.FormatInt (api.ServicePort tgt) /\
    url.Path (http.URL r')
    = "/" +:+ strings.Join (drop 2 (strings.Split "/orders/123/items" "/")) "/" /\
    url.Path (http.URL r') = "/" +:+ "123/items".
Proof.
  apply (C1_director_rewrites_request orders_registry 4711
           (get "/orders/123/items") "orders" "123/items"
           [api.mkCatalogService "i1" "10.0.0.5" 9090]);
    [reflexivity | reflexivity | reflexivity | discriminate | lia].
Defined.

(** C2. When the exchange has failed, the path names the service svc, and
    the registry answers the second lookup without error and with zero
    instances, the error hook replies 404 (on a writer whose status line is
    still unwritten, as it is when the proxy calls the hook) and the body it
    writes is "svc Not Found" and a newline, so the body contains
    "svc Not Found" and svc. *)
Theorem C2_errFunc_not_found
    (client : api.Client) (w : http.ResponseWriter) (r : http.Request)
    (text svc : string) :
  serviceNameOf (url.Path (http.URL r)) = Some svc ->
  client svc "" = ([], None) ->
  http.wStatus w = None ->
  exists w',
    outcome (errFunc client w r (Some text)) = Done w' /\
    http.wStatus w' = Some 404 /\
    http.wBody w' = http.wBody w +:+ (svc +:+ " Not Found") +:+ String "010" "" /\
    strings.Contains (http.wBody w') (svc +:+ " Not Found") = true /\
    strings.Contains (http.wBody w') svc = true.
Proof.
  intros Hsvc Hc Hw.
  exists (http.Error w (svc +:+ " Not Found") 404).
  rewrite (errFunc_no_instance client w r (Some text) svc Hsvc Hc).
  rewrite (Error_status w _ 404 Hw), Error_body.
  repeat split.
  - apply Contains_append_l, Contains_prefix.
  - apply Contains_append_l. rewrite append_assoc. apply Contains_prefix.
Qed.

Lemma C2_witness :
  exists w',
    outcome (errFunc (fun _ _ => ([], None)) http.NewResponseWriter
               (get "/orders/123") (Some "connection refused")) = Done w' /\
    http.wStatus w' = Some 404 /\
    http.wBody w' = "" +:+ ("orders" +:+ " Not Found") +:+ String "010" "" /\
    strings.Contains (http.wBody w') ("orders" +:+ " Not Found") = true /\
    strings.Contains (http.wBody w') "orders" = true.
Proof.
  apply (C2_errFunc_not_found (fun _ _ => ([], None)) http.NewResponseWriter
           (get "/orders/123") "connection refused" "orders");
    reflexivity.
Defined.

(** C3. The error hook does not reply 500 when instances exist: for the
    request /orders/123 whose exchange failed with "connection refused",
    and a registry that still lists one instance of orders, the hook asks
    the registry and then panics on [err.Error()], because [err] holds the
    nil error of the registry call; nothing is written. *)
Theorem C3_errFunc_panics_with_instances :
  errFunc orders_registry http.NewResponseWriter (get "/orders/123")
    (Some "connection refused")
  = ([Queried "orders" ""], Panicked NilDereference).
Proof. reflexivity. Qed.

(** C4. The condition of the response hook is true for every status code,
    so the hook runs the rewrite branch on every response. *)
Theorem C4_status_condition_always_true :
  (forall StatusCode : Z, status_condition StatusCode = true) /\
  (forall resp : http.Response, modifyFunc resp = rewrite_branch resp).
Proof.
  split; [exact status_condition_true |].
  intros resp. unfold modifyFunc. now rewrite status_condition_true.
Qed.

(** C5. For a request whose path is the empty string the director returns
    at once: the request it leaves is the request it received, and its only
    effect is the log record of the path; the registry is not asked. *)
Theorem C5_director_empty_path
    (client : api.Client) (rand_Int : Z) (r : http.Request) :
  url.Path (http.URL r) = "" ->
  outcome (director client rand_Int r) = Done r /\
  events (director client rand_Int r) = [Logged ["request Path:"; ""]] /\
  queried (events (director client rand_Int r)) = false.
Proof.
  intros H. rewrite (director_empty_path client rand_Int r H).
  repeat split.
Qed.

Lemma C5_witness :
  outcome (director orders_registry 4711 (get "")) = Done (get "") /\
  events (director orders_registry 4711 (get ""))
  = [Logged ["request Path:"; ""]] /\
  queried (events (director orders_registry 4711 (get ""))) = false.
Proof.
  apply (C5_director_empty_path orders_registry 4711 (get "")).
  reflexivity.
Defined.

(** C7. With a registry result of exactly one instance, the index
    [rand.Int() % len(result)] is 0 whatever [rand.Int()] returns, and the
    director leaves the same request, addressed to that instance, for every
    value of the random source. *)
Theorem C7_single_instance_deterministic
    (client : api.Client) (r : http.Request) (svc : string)
    (inst : api.CatalogService) :
  serviceNameOf (url.Path (http.URL r)) = Some svc ->
  client svc "" = ([inst], None) ->
  (forall rand_Int : Z, Z.rem rand_Int (len [inst]) = 0) /\
  exists r',
    (forall rand_Int : Z, outcome (director client rand_Int r) = Done r') /\
    url.Scheme (http.URL r') = "http" /\
    url.Host (http.URL r')
    = api.ServiceAddress inst +:+ ":" +:+ strconv.FormatInt (api.ServicePort inst).
Proof.
  intros Hsvc Hc.
  assert (Hrem : forall n : Z, Z.rem n (len [inst]) = 0)
    by (intros n; apply Z.rem_1_r).
  split; [exact Hrem |].
  destruct (serviceNameOf_pieces _ _ Hsvc) as [first Hsplit].
  pose proof (serviceNameOf_nonempty _ _ Hsvc) as Hne.
  eexists. split; [| split].
  - intros n.
    rewrite (director_routes client n r first svc _ [inst] inst Hne Hsplit Hc).
    + reflexivity.
    + rewrite Hrem. lia.
    + now rewrite Hrem.
  - reflexivity.
  - reflexivity.
Qed.

Lemma C7_witness :
  (forall rand_Int : Z,
     Z.rem rand_Int (len [api.mkCatalogService "i1" "10.0.0.5" 9090]) = 0) /\
  exists r',
    (forall rand_Int : Z,
       outcome (director orders_registry rand_Int (get "/orders/123/items")) = Done r') /\
    url.Scheme (http.URL r') = "http" /\
    url.Host (http.URL r') = "10.0.0.5" +:+ ":" +:+ strconv.FormatInt 9090.
Proof.
  apply (C7_single_instance_deterministic orders_registry
           (get "/orders/123/items") "orders"
           (api.mkCatalogService "i1" "10.0.0.5" 9090));
    reflexivity.
Defined.

(** C10. On a response whose body reads to its end without error, the
    response hook returns no error and leaves a body that delivers the same
    bytes; it sets the field ContentLength to the number of those bytes and
    the header Content-Length to that number in decimal. *)
Theorem C10_modifyFunc_identity_on_body (resp : http.Response) :
  ioutil.failure (http.Body resp) = None ->
  exists resp',
    modifyFunc resp = (resp', None) /\
    fst (ioutil.ReadAll (http.Body resp'))
    = (ioutil.pending (http.Body resp), None) /\
    http.ContentLength resp' = len (ioutil.pending (http.Body resp)) /\
    http.ResponseHeader resp' !! "Content-Length"
    = Some [strconv.FormatInt (len (ioutil.pending (http.Body resp)))] /\
    strconv.ParseInt (strconv.FormatInt (len (ioutil.pending (http.Body resp))))
    = Some (len (ioutil.pending (http.Body resp))) /\
    http.StatusCode resp' = http.StatusCode resp.
Proof.
  intros H. eexists. split.
  - unfold modifyFunc. rewrite status_condition_true.
    apply (rewrite_branch_readable resp H).
  - simpl. repeat split.
    + unfold Header_Set. apply lookup_insert_eq.
    + apply ParseInt_FormatInt.
Qed.

Lemma C10_witness :
  exists resp',
    modifyFunc ok_hello = (resp', None) /\
    fst (ioutil.ReadAll (http.Body resp'))
    = (ioutil.pending (http.Body ok_hello), None) /\
    http.ContentLength resp' = len (ioutil.pending (http.Body ok_hello)) /\
    http.ResponseHeader resp' !! "Content-Length"
    = Some [strconv.FormatInt (len (ioutil.pending (http.Body ok_hello)))] /\
    strconv.ParseInt (strconv.FormatInt (len (ioutil.pending (http.Body ok_hello))))
    = Some (len (ioutil.pending (http.Body ok_hello))) /\
    http.StatusCode resp' = http.StatusCode ok_hello.
Proof.
  apply (C10_modifyFunc_identity_on_body ok_hello). reflexivity.
Defined.

Example modifyFunc_ok_hello :
  modifyFunc ok_hello
  = (http.mkResponse 200 (ioutil.mkBody (list_byte_of_string "hello") None) 5
       {[ "Content-Length" := ["5"] ]},
     None).
Proof. reflexivity. Qed.

(** ** What the hooks emit *)

Lemma events_bind {A B} (m : M A) (k : A -> M B) :
  events (bind m k)
  = events m ++ match outcome m with
                | Done a => events (k a)
                | Panicked _ => []
                end.
Proof.
  destruct m as [t [a|p]]; simpl.
  - now destruct (k a).
  - now rewrite app_nil_r.
Qed.

Lemma bind_ret {A B} (a : A) (k : A -> M B) : bind (ret a) k = k a.
Proof. unfold bind, ret. now destruct (k a). Qed.

Lemma events_Log_bind {B} (keyvals : list string) (k : unit -> M B) :
  events (bind (Log keyvals) k) = Logged keyvals :: events (k tt).
Proof. now rewrite events_bind. Qed.

Lemma events_Catalog_Service_bind {B} (client : api.Client) (q tag : string)
    (k : list api.CatalogService * error -> M B) :
  events (bind (Catalog_Service client q tag) k)
  = Queried q tag :: events (k (client q tag)).
Proof. now rewrite events_bind. Qed.

Lemma dialed_app (t u : list event) : dialed (t ++ u) = dialed t || dialed u.
Proof. apply existsb_app. Qed.

Lemma queried_app (t u : list event) : queried (t ++ u) = queried t || queried u.
Proof. apply existsb_app. Qed.

Lemma no_dial_bind {A B} (m : M A) (k : A -> M B) :
  no_dial m -> (forall a, no_dial (k a)) -> no_dial (bind m k).
Proof.
  unfold no_dial. intros Hm Hk. rewrite events_bind, dialed_app, Hm.
  destruct (outcome m); [apply Hk | reflexivity].
Qed.

Lemma no_dial_ret {A} (a : A) : no_dial (ret a).
Proof. reflexivity. Qed.

Lemma no_dial_raise {A} (p : panic) : no_dial (@raise A p).
Proof. reflexivity. Qed.

Lemma no_dial_Log (keyvals : list string) : no_dial (Log keyvals).
Proof. reflexivity. Qed.

Lemma no_dial_Catalog_Service (client : api.Client) (q tag : string) :
  no_dial (Catalog_Service client q tag).
Proof. reflexivity. Qed.

Lemma no_dial_index {A} (a : list A) (i : Z) : no_dial (index a i).
Proof. unfold index. now destruct (if 0 <=? i then a !! Z.to_nat i else None). Qed.

Lemma no_dial_slice_from {A} (a : list A) (lo : Z) : no_dial (slice_from a lo).
Proof. unfold slice_from. now destruct ((0 <=? lo) && (lo <=? len a)). Qed.

Lemma no_dial_rem (x y : Z) : no_dial (rem x y).
Proof. unfold rem. now destruct (y =? 0). Qed.

Lemma no_dial_Error_ (err : error) : no_dial (Error_ err).
Proof. now destruct err. Qed.

Create HintDb no_dial.

#[local] Hint Resolve no_dial_ret no_dial_raise no_dial_Log
  no_dial_Catalog_Service no_dial_index no_dial_slice_from no_dial_rem
  no_dial_Error_ : no_dial.

Ltac no_dial_steps :=
  repeat first
    [ apply no_dial_bind; [solve [auto with no_dial] | intros]
    | solve [auto with no_dial]
    | match goal with
      | |- no_dial (let (_, _) := ?x in _) => destruct x
      | |- no_dial (if ?b then _ else _) => destruct b
      end ].

(** The director itself never opens an exchange. *)
Lemma director_no_dial (client : api.Client) (rand_Int : Z) (r : http.Request) :
  no_dial (director client rand_Int r).
Proof. unfold director. no_dial_steps. Qed.

(** Nor does the error hook. *)
Lemma errFunc_no_dial (client : api.Client) (w : http.ResponseWriter)
    (r : http.Request) (err : error) :
  no_dial (errFunc client w r err).
Proof. unfold errFunc. no_dial_steps. Qed.

(** Once the path names a service, both hooks ask the registry for it. *)
Lemma director_asks (client : api.Client) (rand_Int : Z) (r : http.Request)
    (svc : string) :
  serviceNameOf (url.Path (http.URL r)) = Some svc ->
  exists rest,
    events (director client rand_Int r)
    = [Logged ["request Path:"; url.Path (http.URL r)];
       Logged ["serviceName:"; svc];
       Queried svc ""] ++ rest.
Proof.
  intros Hsvc. pose proof (serviceNameOf_nonempty _ _ Hsvc) as Hne.
  unfold serviceNameOf in Hsvc. unfold director.
  destruct (String.eqb_spec (url.Path (http.URL r)) ""); [contradiction |].
  rewrite (index_1_in_range _ _ Hsvc).
  rewrite events_Log_bind, bind_ret, events_Log_bind,
    events_Catalog_Service_bind.
  eexists. reflexivity.
Qed.

Lemma errFunc_asks (client : api.Client) (w : http.ResponseWriter)
    (r : http.Request) (err : error) (svc : string) :
  serviceNameOf (url.Path (http.URL r)) = Some svc ->
  exists rest, events (errFunc client w r err) = Queried svc "" :: rest.
Proof.
  intros Hsvc. pose proof (serviceNameOf_nonempty _ _ Hsvc) as Hne.
  unfold serviceNameOf in Hsvc. unfold errFunc.
  destruct (String.eqb_spec (url.Path (http.URL r)) ""); [contradiction |].
  rewrite (index_1_in_range _ _ Hsvc).
  rewrite bind_ret, events_Catalog_Service_bind.
  eexists. reflexivity.
Qed.

(** The transport refuses a URL without an http(s) scheme or without a host
    before it dials. *)
Lemma RoundTrip_refuses (backend : http.Request -> http.Response + string)
    (Quote : string -> string) (r : http.Request) :
  (url.Scheme (http.URL r) <> "http" /\ url.Scheme (http.URL r) <> "https")
  \/ url.Host (http.URL r) = "" ->
  exists text, RoundTrip backend Quote r = ret (inr text).
Proof.
  intros H. unfold RoundTrip.
  destruct (String.eqb_spec (url.Scheme (http.URL r)) "http") as [E1|E1];
    destruct (String.eqb_spec (url.Scheme (http.URL r)) "https") as [E2|E2];
    simpl; try (eexists; reflexivity);
    (destruct H as [[H1 H2]|H]; [congruence |]);
    rewrite H; simpl; eexists; reflexivity.
Qed.

(** C6, as stated, fails: the registry call of the director errors, the
    director leaves the request as it was, and the proxy still hands it to
    the transport, which opens an exchange with the host the request line
    named. *)
Lemma C6_counterexample :
  serviceNameOf (url.Path (http.URL (get_absolute "10.0.0.9:8080" "/orders/1")))
  = Some "orders" /\
  unreachable_registry "orders" "" = ([], Some "connection refused") /\
  outcome (director unreachable_registry 4711
             (get_absolute "10.0.0.9:8080" "/orders/1"))
  = Done (get_absolute "10.0.0.9:8080" "/orders/1") /\
  events (ServeHTTP unreachable_registry unreachable_registry 4711
            refusing_backend id http.NewResponseWriter
            (get_absolute "10.0.0.9:8080" "/orders/1"))
  = [Logged ["request Path:"; "/orders/1"];
     Logged ["serviceName:"; "orders"];
     Queried "orders" "";
     Logged ["reverseProxy failed"; "query service instance error";
             "connection refused"];
     Dialed "http" "10.0.0.9:8080" "/orders/1";
     Queried "orders" "";
     Logged ["reverseProxy failed"; "query service instance error";
             "connection refused"]] /\
  dialed (events (ServeHTTP unreachable_registry unreachable_registry 4711
                    refusing_backend id http.NewResponseWriter
                    (get_absolute "10.0.0.9:8080" "/orders/1")))
  = true.
Proof. repeat split. Qed.

(** C6, amended. When the registry call of the director fails, the director
    leaves the request as it received it and opens no exchange itself; the
    proxy then hands that same request to the transport, and no exchange
    with a backend is opened when the URL of the request has no http or
    https scheme or no host, as for a request line that carries only a
    path. *)
Theorem C6_registry_error_no_exchange
    (at_routing at_error : api.Client) (rand_Int : Z)
    (backend : http.Request -> http.Response + string)
    (Quote : string -> string)
    (rw : http.ResponseWriter) (r : http.Request)
    (svc text : string) (result : list api.CatalogService) :
  serviceNameOf (url.Path (http.URL r)) = Some svc ->
  at_routing svc "" = (result, Some text) ->
  outcome (director at_routing rand_Int r) = Done r /\
  dialed (events (director at_routing rand_Int r)) = false /\
  ((url.Scheme (http.URL r) <> "http" /\ url.Scheme (http.URL r) <> "https")
   \/ url.Host (http.URL r) = "" ->
   dialed (events (ServeHTTP at_routing at_error rand_Int backend Quote rw r))
   = false).
Proof.
  intros Hsvc Hc.
  pose proof (serviceNameOf_nonempty _ _ Hsvc) as Hne.
  pose proof (director_registry_error at_routing rand_Int r svc text result
                Hne Hsvc Hc) as Hd.
  split; [now rewrite Hd |].
  split; [apply director_no_dial |].
  intros Hurl. unfold ServeHTTP.
  rewrite events_bind, dialed_app.
  rewrite (director_no_dial at_routing rand_Int r).
  rewrite Hd. simpl outcome.
  destruct (RoundTrip_refuses backend Quote r Hurl) as [refusal ->].
  rewrite bind_ret. apply errFunc_no_dial.
Qed.

Lemma C6_witness :
  outcome (director unreachable_registry 4711 (get "/orders/1"))
  = Done (get "/orders/1") /\
  dialed (events (director unreachable_registry 4711 (get "/orders/1"))) = false /\
  dialed (events (ServeHTTP unreachable_registry unreachable_registry 4711
                    refusing_backend id http.NewResponseWriter
                    (get "/orders/1")))
  = false.
Proof.
  destruct (C6_registry_error_no_exchange unreachable_registry
              unreachable_registry 4711 refusing_backend id
              http.NewResponseWriter (get "/orders/1")
              "orders" "connection refused" [] eq_refl eq_refl)
    as (Hsame & Hdirector & Hproxy).
  exact (conj Hsame (conj Hdirector (Hproxy (or_intror eq_refl)))).
Defined.

(** C8, as stated, fails: for the path "/" the director asks the registry,
    for the empty service name. *)
Lemma C8_counterexample :
  url.Path (http.URL (get "/")) = "/" /\
  events (director orders_registry 4711 (get "/"))
  = [Logged ["request Path:"; "/"];
     Logged ["serviceName:"; ""];
     Queried "" "";
     Logged ["reverseProxy failed"; "no such service instance"; ""]] /\
  queried (events (director orders_registry 4711 (get "/"))) = true.
Proof. repeat split. Qed.

(** C8, amended. For a request whose path is exactly "/", the director does
    not return early: it takes the empty string as the service identifier
    and asks the registry for it; it leaves the request as it received it
    when that lookup fails or returns no instance. *)
Theorem C8_root_path_is_looked_up
    (client : api.Client) (rand_Int : Z) (r : http.Request) :
  url.Path (http.URL r) = "/" ->
  (exists rest,
     events (director client rand_Int r)
     = [Logged ["request Path:"; "/"];
        Logged ["serviceName:"; ""];
        Queried "" ""] ++ rest) /\
  queried (events (director client rand_Int r)) = true /\
  (forall result text,
     client "" "" = (result, Some text) ->
     outcome (director client rand_Int r) = Done r) /\
  (client "" "" = ([], None) ->
   outcome (director client rand_Int r) = Done r).
Proof.
  intros Hpath.
  assert (Hsvc : serviceNameOf (url.Path (http.URL r)) = Some "")
    by now rewrite Hpath.
  pose proof (serviceNameOf_nonempty _ _ Hsvc) as Hne.
  destruct (director_asks client rand_Int r "" Hsvc) as [rest Hev].
  rewrite Hpath in Hev.
  split; [now exists rest |].
  split; [now rewrite Hev |].
  split.
  - intros result text Hc.
    now rewrite (director_registry_error client rand_Int r "" text result
                   Hne Hsvc Hc).
  - intros Hc.
    now rewrite (director_no_instance client rand_Int r "" Hne Hsvc Hc).
Qed.

Lemma C8_witness :
  queried (events (director orders_registry 4711 (get "/"))) = true /\
  outcome (director orders_registry 4711 (get "/")) = Done (get "/") /\
  queried (events (director unreachable_registry 4711 (get "/"))) = true /\
  outcome (director unreachable_registry 4711 (get "/")) = Done (get "/").
Proof.
  destruct (C8_root_path_is_looked_up orders_registry 4711 (get "/") eq_refl)
    as (_ & Hasked & _ & Hnone).
  destruct (C8_root_path_is_looked_up unreachable_registry 4711 (get "/") eq_refl)
    as (_ & Hasked' & Herror & _).
  exact (conj Hasked (conj (Hnone eq_refl)
           (conj Hasked' (Herror [] "connection refused" eq_refl)))).
Defined.

(** C9. Both hooks index the pieces of a non-empty path at 1 without a
    check.  When the path contains a "/", there are at least two pieces, the
    index is in range and both hooks go on to ask the registry for the piece
    found; when it contains none, the split gives the path as its single
    piece and the index expression panics, in the director and in the error
    hook alike. *)
Theorem C9_service_index_bounds
    (client : api.Client) (rand_Int : Z) (w : http.ResponseWriter)
    (err : error) (r : http.Request) :
  url.Path (http.URL r) <> "" ->
  (strings.ContainsByte (url.Path (http.URL r)) "/" = true ->
   exists svc,
     1 < len (strings.Split (url.Path (http.URL r)) "/") /\
     index (strings.Split (url.Path (http.URL r)) "/") 1 = ret svc /\
     In (Queried svc "") (events (director client rand_Int r)) /\
     In (Queried svc "") (events (errFunc client w r err))) /\
  (strings.ContainsByte (url.Path (http.URL r)) "/" = false ->
   strings.Split (url.Path (http.URL r)) "/" = [url.Path (http.URL r)] /\
   index (strings.Split (url.Path (http.URL r)) "/") 1
   = raise (IndexOutOfRange 1 1) /\
   outcome (director client rand_Int r) = Panicked (IndexOutOfRange 1 1) /\
   outcome (errFunc client w r err) = Panicked (IndexOutOfRange 1 1)).
Proof.
  intros Hne. split; intros Hslash.
  - destruct (serviceNameOf_Some _ Hslash) as [svc Hsvc].
    exists svc.
    destruct (serviceNameOf_pieces _ _ Hsvc) as [first Hsplit].
    destruct (director_asks client rand_Int r svc Hsvc) as [rest1 ->].
    destruct (errFunc_asks client w r err svc Hsvc) as [rest2 ->].
    repeat split.
    + rewrite Hsplit. unfold len. simpl length. lia.
    + now apply index_1_in_range.
    + simpl. auto.
    + simpl. auto.
  - destruct (serviceNameOf_None _ Hslash) as [Hsplit Hsvc].
    rewrite (director_one_piece client rand_Int r Hne Hsvc).
    rewrite (errFunc_one_piece client w r err Hne Hsvc).
    rewrite Hsplit. repeat split.
Qed.

Lemma C9_witness :
  (exists svc,
     1 < len (strings.Split "/orders/1" "/") /\
     index (strings.Split "/orders/1" "/") 1 = ret svc /\
     In (Queried svc "") (events (director orders_registry 4711 (get "/orders/1"))) /\
     In (Queried svc "")
       (events (errFunc orders_registry http.NewResponseWriter
                  (get "/orders/1") (Some "connection refused")))) /\
  (strings.Split "orders" "/" = ["orders"] /\
   index (strings.Split "orders" "/") 1 = raise (IndexOutOfRange 1 1) /\
   outcome (director orders_registry 4711 (get "orders"))
   = Panicked (IndexOutOfRange 1 1) /\
   outcome (errFunc orders_registry http.NewResponseWriter
              (get "orders") (Some "connection refused"))
   = Panicked (IndexOutOfRange 1 1)).
Proof.
  split.
  - apply (C9_service_index_bounds orders_registry 4711 http.NewResponseWriter
             (Some "connection refused") (get "/orders/1"));
      [discriminate | reflexivity].
  - apply (C9_service_index_bounds orders_registry 4711 http.NewResponseWriter
             (Some "connection refused") (get "orders"));
      [discriminate | reflexivity].
Defined.

(** * Further properties of the hooks *)

(** ** The director, branch by branch *)

(** Lines 117-131 for any value of the random source: the request is routed
    to the instance at the index drawn, or the index expression panics. *)
Lemma director_with_instances (client : api.Client) (rand_Int : Z)
    (r : http.Request) (first serviceName : string) (tail : list string)
    (result : list api.CatalogService) :
  strings.Split (url.Path (http.URL r)) "/" = first :: serviceName :: tail ->
  client serviceName "" = (result, None) ->
  result <> [] ->
  director client rand_Int r
  = match (if 0 <=? Z.rem rand_Int (len result)
           then result !! Z.to_nat (Z.rem rand_Int (len result))
           else None) with
    | Some tgt =>
        ([Logged ["request Path:"; url.Path (http.URL r)];
          Logged ["serviceName:"; serviceName];
          Queried serviceName "";
          Logged ["service id"; api.ServiceID tgt]],
         Done (routed r tgt tail))
    | None =>
        ([Logged ["request Path:"; url.Path (http.URL r)];
          Logged ["serviceName:"; serviceName];
          Queried serviceName ""],
         Panicked (IndexOutOfRange (Z.rem rand_Int (len result)) (len result)))
    end.
Proof.
  intros Hsplit Hc Hres.
  assert (Hne : url.Path (http.URL r) <> "").
  { intros E. rewrite E in Hsplit. discriminate. }
  unfold director.
  destruct (String.eqb_spec (url.Path (http.URL r)) ""); [contradiction |].
  rewrite Hsplit, slice_from_2.
  run. rewrite Hc. simpl. rewrite (len_pos _ Hres).
  unfold rem, index. rewrite (len_pos _ Hres). simpl.
  destruct (if 0 <=? Z.rem rand_Int (len result)
            then result !! Z.to_nat (Z.rem rand_Int (len result))
            else None); reflexivity.
Qed.

(** Every way the director can end, for a path that names a service. *)
Lemma director_cases (client : api.Client) (rand_Int : Z) (r : http.Request)
    (svc : string) :
  serviceNameOf (url.Path (http.URL r)) = Some svc ->
  let t0 := [Logged ["request Path:"; url.Path (http.URL r)];
             Logged ["serviceName:"; svc];
             Queried svc ""] in
  (exists text,
     director client rand_Int r
     = (t0 ++ [Logged ["reverseProxy failed";
                       "query service instance error"; text]], Done r)) \/
  director client rand_Int r
  = (t0 ++ [Logged ["reverseProxy failed"; "no such service instance"; svc]],
     Done r) \/
  (exists tgt,
     In tgt (fst (client svc "")) /\ snd (client svc "") = None /\
     director client rand_Int r
     = (t0 ++ [Logged ["service id"; api.ServiceID tgt]],
        Done (routed r tgt (drop 2 (strings.Split (url.Path (http.URL r)) "/"))))) \/
  (exists i n,
     (i < 0 \/ n <= i) /\
     director client rand_Int r = (t0, Panicked (IndexOutOfRange i n))).
Proof.
  intros Hsvc t0.
  pose proof (serviceNameOf_nonempty _ _ Hsvc) as Hne.
  destruct (serviceNameOf_pieces _ _ Hsvc) as [first Hsplit].
  destruct (client svc "") as [result [text|]] eqn:Hc.
  - left. exists text.
    now rewrite (director_registry_error client rand_Int r svc text result).
  - destruct result as [|inst result'].
    + right. left.
      now rewrite (director_no_instance client rand_Int r svc).
    + right. right.
      rewrite (director_with_instances client rand_Int r first svc _
                 (inst :: result') Hsplit Hc) by discriminate.
      set (res := inst :: result') in *.
      destruct (Z.leb_spec 0 (Z.rem rand_Int (len res))) as [Hlo|Hlo].
      * destruct (res !! Z.to_nat (Z.rem rand_Int (len res))) as [tgt|] eqn:Ht.
        -- left. exists tgt. split; [| split; reflexivity].
           cbn [fst]. apply list_elem_of_In.
           eapply list_elem_of_lookup_2. exact Ht.
        -- right. do 2 eexists. split; [| reflexivity].
           right. apply lookup_ge_None_1 in Ht. unfold len in *. lia.
      * right. do 2 eexists. split; [| reflexivity]. now left.
Qed.

(** With a non-negative random number the director returns normally once
    the path names a service. *)
Lemma director_returns (client : api.Client) (rand_Int : Z) (r : http.Request)
    (svc : string) :
  0 <= rand_Int ->
  serviceNameOf (url.Path (http.URL r)) = Some svc ->
  exists r', outcome (director client rand_Int r) = Done r'.
Proof.
  intros Hrand Hsvc.
  pose proof (serviceNameOf_nonempty _ _ Hsvc) as Hne.
  destruct (serviceNameOf_pieces _ _ Hsvc) as [first Hsplit].
  destruct (client svc "") as [result [text|]] eqn:Hc.
  - exists r.
    now rewrite (director_registry_error client rand_Int r svc text result).
  - destruct result as [|inst result'].
    + exists r. now rewrite (director_no_instance client rand_Int r svc).
    + assert (Hres : inst :: result' <> []) by discriminate.
      destruct (rem_index_in_range rand_Int _ Hres Hrand) as [Hlo [tgt Htgt]].
      eexists.
      now rewrite (director_routes client rand_Int r first svc _ _ tgt
                     Hne Hsplit Hc Hlo Htgt).
Qed.

(** X1. Whenever the director returns, the request it leaves is either the
    request it received, or that request routed to an instance that the
    registry returned, without error, for the service the path names. *)
Theorem director_routes_only_to_registry_instances
    (client : api.Client) (rand_Int : Z) (r r' : http.Request) :
  outcome (director client rand_Int r) = Done r' ->
  r' = r \/
  exists svc tgt,
    serviceNameOf (url.Path (http.URL r)) = Some svc /\
    snd (client svc "") = None /\
    In tgt (fst (client svc "")) /\
    url.Scheme (http.URL r') = "http" /\
    url.Host (http.URL r')
    = api.ServiceAddress tgt +:+ ":" +:+ strconv.FormatInt (api.ServicePort tgt) /\
    r' = routed r tgt (drop 2 (strings.Split (url.Path (http.URL r)) "/")).
Proof.
  intros Hout.
  destruct (String.eqb_spec (url.Path (http.URL r)) "") as [Hempty|Hne].
  { rewrite (director_empty_path client rand_Int r Hempty) in Hout.
    left. now injection Hout. }
  destruct (serviceNameOf (url.Path (http.URL r))) as [svc|] eqn:Hsvc.
  - destruct (director_cases client rand_Int r svc Hsvc)
      as [[text E] | [E | [(tgt & Hin & Herr & E) | (i & n & _ & E)]]];
      rewrite E in Hout; simpl in Hout.
    + left. now injection Hout.
    + left. now injection Hout.
    + right. exists svc, tgt. injection Hout as <-. now repeat split.
    + discriminate.
  - rewrite (director_one_piece client rand_Int r Hne Hsvc) in Hout.
    discriminate.
Qed.

Lemma director_routes_only_to_registry_instances_witness :
  http.mkRequest "GET" (url.mkURL "http" "10.0.0.5:9090" "/123/items" "")
    {[ "X-Real-Ip" := ["192.0.2.7:51000"] ]} "192.0.2.7:51000"
  = get "/orders/123/items" \/
  exists svc tgt,
    serviceNameOf (url.Path (http.URL (get "/orders/123/items"))) = Some svc /\
    snd (orders_registry svc "") = None /\
    In tgt (fst (orders_registry svc "")) /\
    url.Scheme (url.mkURL "http" "10.0.0.5:9090" "/123/items" "") = "http" /\
    url.Host (url.mkURL "http" "10.0.0.5:9090" "/123/items" "")
    = api.ServiceAddress tgt +:+ ":" +:+ strconv.FormatInt (api.ServicePort tgt) /\
    http.mkRequest "GET" (url.mkURL "http" "10.0.0.5:9090" "/123/items" "")
      {[ "X-Real-Ip" := ["192.0.2.7:51000"] ]} "192.0.2.7:51000"
    = routed (get "/orders/123/items") tgt
        (drop 2 (strings.Split (url.Path (http.URL (get "/orders/123/items"))) "/")).
Proof.
  exact (director_routes_only_to_registry_instances orders_registry 4711
           (get "/orders/123/items") _ eq_refl).
Defined.

(** X2. With the non-negative number that [rand.Int()] returns, the
    director panics exactly on a non-empty path without "/", and then with
    an index out of range [1] with length 1; on every other path it
    returns. *)
Theorem director_panics_iff_one_piece
    (client : api.Client) (rand_Int : Z) (r : http.Request) :
  0 <= rand_Int ->
  ((exists p, outcome (director client rand_Int r) = Panicked p) <->
   (url.Path (http.URL r) <> "" /\
    strings.ContainsByte (url.Path (http.URL r)) "/" = false)) /\
  (forall p, outcome (director client rand_Int r) = Panicked p ->
             p = IndexOutOfRange 1 1).
Proof.
  intros Hrand.
  assert (Hcases :
    (exists r', outcome (director client rand_Int r) = Done r'
                /\ (url.Path (http.URL r) = ""
                    \/ strings.ContainsByte (url.Path (http.URL r)) "/" = true))
    \/ (outcome (director client rand_Int r) = Panicked (IndexOutOfRange 1 1)
        /\ url.Path (http.URL r) <> ""
        /\ strings.ContainsByte (url.Path (http.URL r)) "/" = false)).
  { destruct (String.eqb_spec (url.Path (http.URL r)) "") as [Hempty|Hne].
    - left. exists r. split; [| now left].
      now rewrite (director_empty_path client rand_Int r Hempty).
    - destruct (strings.ContainsByte (url.Path (http.URL r)) "/") eqn:Hslash.
      + left. destruct (serviceNameOf_Some _ Hslash) as [svc Hsvc].
        destruct (director_returns client rand_Int r svc Hrand Hsvc) as [r' E].
        exists r'. split; [exact E | now right].
      + right. destruct (serviceNameOf_None _ Hslash) as [Hsplit Hsvc].
        rewrite (director_one_piece client rand_Int r Hne Hsvc), Hsplit.
        now repeat split. }
  destruct Hcases as [(r' & E & Hpath) | (E & Hne & Hslash)]; rewrite E.
  - split; [split |].
    + intros [p Hp]. discriminate.
    + intros [Hne Hslash]. destruct Hpath as [H|H]; congruence.
    + intros p Hp. discriminate.
  - split; [split |].
    + intros _. now split.
    + intros _. now eexists.
    + intros p Hp. now injection Hp.
Qed.

Lemma director_panics_iff_one_piece_witness :
  ((exists p, outcome (director orders_registry 4711 (get "orders")) = Panicked p) <->
   (url.Path (http.URL (get "orders")) <> "" /\
    strings.ContainsByte (url.Path (http.URL (get "orders"))) "/" = false)) /\
  (forall p, outcome (director orders_registry 4711 (get "orders")) = Panicked p ->
             p = IndexOutOfRange 1 1).
Proof.
  apply (director_panics_iff_one_piece orders_registry 4711 (get "orders")).
  lia.
Defined.

(** No piece of a split contains the separator. *)
Lemma split_from_pieces_clean (sep : ascii) (cur s : string) :
  strings.ContainsByte cur sep = false ->
  Forall (fun piece => strings.ContainsByte piece sep = false)
    (strings.split_from sep cur s).
Proof.
  revert cur. induction s as [|c s IH]; intros cur Hcur; simpl.
  - now constructor.
  - destruct (Ascii.eqb c sep) eqn:Hc.
    + constructor; [exact Hcur | now apply IH].
    + apply IH. rewrite ContainsByte_append, Hcur. simpl. now rewrite Hc.
Qed.

(** X3. When the director routes a request, it sets the header X-Real-Ip to
    the single value [r.RemoteAddr], whatever the request carried under that
    key, and keeps every other header, the method, the query and the remote
    address. *)
Theorem director_sets_provenance_header
    (client : api.Client) (rand_Int : Z) (r : http.Request)
    (svc : string) (result : list api.CatalogService) :
  serviceNameOf (url.Path (http.URL r)) = Some svc ->
  client svc "" = (result, None) ->
  result <> [] ->
  0 <= rand_Int ->
  exists r',
    outcome (director client rand_Int r) = Done r' /\
    http.Header r' !! "X-Real-Ip" = Some [http.RemoteAddr r] /\
    (forall key, key <> "X-Real-Ip" ->
                 http.Header r' !! key = http.Header r !! key) /\
    http.Method r' = http.Method r /\
    url.RawQuery (http.URL r') = url.RawQuery (http.URL r) /\
    http.RemoteAddr r' = http.RemoteAddr r.
Proof.
  intros Hsvc Hc Hres Hrand.
  pose proof (serviceNameOf_nonempty _ _ Hsvc) as Hne.
  destruct (serviceNameOf_pieces _ _ Hsvc) as [first Hsplit].
  destruct (rem_index_in_range rand_Int result Hres Hrand) as [Hlo [tgt Htgt]].
  eexists. split.
  - now rewrite (director_routes client rand_Int r first svc _ result tgt
                   Hne Hsplit Hc Hlo Htgt).
  - simpl. unfold Header_Set. repeat split.
    + apply lookup_insert_eq.
    + intros key Hkey. now apply lookup_insert_ne.
Qed.

Lemma director_sets_provenance_header_witness :
  exists r',
    outcome (director orders_registry 4711 (get_spoofed "/orders/123")) = Done r' /\
    http.Header r' !! "X-Real-Ip" = Some ["192.0.2.7:51000"] /\
    (forall key, key <> "X-Real-Ip" ->
                 http.Header r' !! key
                 = http.Header (get_spoofed "/orders/123") !! key) /\
    http.Method r' = "GET" /\
    url.RawQuery (http.URL r') = "page=2" /\
    http.RemoteAddr r' = "192.0.2.7:51000".
Proof.
  apply (director_sets_provenance_header orders_registry 4711
           (get_spoofed "/orders/123") "orders"
           [api.mkCatalogService "i1" "10.0.0.5" 9090]);
    [reflexivity | reflexivity | discriminate | lia].
Defined.

(** X4. When the registry answers without error and with zero instances,
    the director leaves the request as it received it, after one registry
    query and a log record that names the service. *)
Theorem director_unknown_service_passthrough
    (client : api.Client) (rand_Int : Z) (r : http.Request) (svc : string) :
  serviceNameOf (url.Path (http.URL r)) = Some svc ->
  client svc "" = ([], None) ->
  outcome (director client rand_Int r) = Done r /\
  queries (events (director client rand_Int r)) = 1%nat /\
  last (events (director client rand_Int r))
  = Some (Logged ["reverseProxy failed"; "no such service instance"; svc]).
Proof.
  intros Hsvc Hc.
  pose proof (serviceNameOf_nonempty _ _ Hsvc) as Hne.
  now rewrite (director_no_instance client rand_Int r svc Hne Hsvc Hc).
Qed.

Lemma director_unknown_service_passthrough_witness :
  outcome (director orders_registry 4711 (get_spoofed "/users/5"))
  = Done (get_spoofed "/users/5") /\
  queries (events (director orders_registry 4711 (get_spoofed "/users/5"))) = 1%nat /\
  last (events (director orders_registry 4711 (get_spoofed "/users/5")))
  = Some (Logged ["reverseProxy failed"; "no such service instance"; "users"]).
Proof.
  apply (director_unknown_service_passthrough orders_registry 4711
           (get_spoofed "/users/5") "users");
    reflexivity.
Defined.

(** The pieces of a path put back together. *)
Lemma path_of_pieces (reqPath first svc : string) (tail : list string) :
  strings.Split reqPath "/" = first :: svc :: tail ->
  strings.ContainsByte first "/" = false /\
  strings.ContainsByte svc "/" = false /\
  reqPath = match tail with
            | [] => first +:+ "/" +:+ svc
            | _ => first +:+ "/" +:+ svc +:+ "/" +:+ strings.Join tail "/"
            end.
Proof.
  intros Hsplit.
  pose proof (split_from_pieces_clean "/" "" reqPath eq_refl) as Hclean.
  fold (strings.Split reqPath "/") in Hclean. rewrite Hsplit in Hclean.
  apply Forall_cons in Hclean as [Hfirst Hclean].
  apply Forall_cons in Hclean as [Hsvc _].
  repeat split; [exact Hfirst | exact Hsvc |].
  rewrite <- (Join_Split "/" reqPath) at 1. rewrite Hsplit.
  now destruct tail.
Qed.

(** X5. The path the director leaves in a routed request is what follows
    the first two pieces of the path it received: the received path is a
    first piece, "/", the service name and then the new path, both pieces
    free of "/"; when nothing follows the service name the new path is
    "/". *)
Theorem director_strips_first_two_pieces
    (client : api.Client) (rand_Int : Z) (r : http.Request)
    (svc : string) (result : list api.CatalogService) :
  serviceNameOf (url.Path (http.URL r)) = Some svc ->
  client svc "" = (result, None) ->
  result <> [] ->
  0 <= rand_Int ->
  exists r' first,
    outcome (director client rand_Int r) = Done r' /\
    strings.ContainsByte first "/" = false /\
    strings.ContainsByte svc "/" = false /\
    (url.Path (http.URL r) = first +:+ "/" +:+ svc +:+ url.Path (http.URL r')
     \/ (url.Path (http.URL r) = first +:+ "/" +:+ svc
         /\ url.Path (http.URL r') = "/")).
Proof.
  intros Hsvc Hc Hres Hrand.
  pose proof (serviceNameOf_nonempty _ _ Hsvc) as Hne.
  destruct (serviceNameOf_pieces _ _ Hsvc) as [first Hsplit].
  destruct (rem_index_in_range rand_Int result Hres Hrand) as [Hlo [tgt Htgt]].
  destruct (path_of_pieces _ _ _ _ Hsplit) as (Hfirst & Hclean & Hpath).
  eexists. exists first. split; [| split; [exact Hfirst | split; [exact Hclean |]]].
  - now rewrite (director_routes client rand_Int r first svc _ result tgt
                   Hne Hsplit Hc Hlo Htgt).
  - simpl. destruct (drop 2 (strings.Split (url.Path (http.URL r)) "/")).
    + right. now split.
    + left. exact Hpath.
Qed.

Lemma director_strips_first_two_pieces_witness :
  exists r' first,
    outcome (director orders_registry 4711 (get "/orders/123/items")) = Done r' /\
    strings.ContainsByte first "/" = false /\
    strings.ContainsByte "orders" "/" = false /\
    (url.Path (http.URL (get "/orders/123/items"))
     = first +:+ "/" +:+ "orders" +:+ url.Path (http.URL r')
     \/ (url.Path (http.URL (get "/orders/123/items")) = first +:+ "/" +:+ "orders"
         /\ url.Path (http.URL r') = "/")).
Proof.
  apply (director_strips_first_two_pieces orders_registry 4711
           (get "/orders/123/items") "orders"
           [api.mkCatalogService "i1" "10.0.0.5" 9090]);
    [reflexivity | reflexivity | discriminate | lia].
Defined.

(** X6. A path that ends with the service name, with or without a closing
    "/", is forwarded with the path "/". *)
Theorem director_empty_remainder
    (client : api.Client) (rand_Int : Z) (r : http.Request)
    (svc : string) (result : list api.CatalogService) :
  url.Path (http.URL r) = "/" +:+ svc
  \/ url.Path (http.URL r) = "/" +:+ svc +:+ "/" ->
  strings.ContainsByte svc "/" = false ->
  client svc "" = (result, None) ->
  result <> [] ->
  0 <= rand_Int ->
  exists r',
    outcome (director client rand_Int r) = Done r' /\
    url.Path (http.URL r') = "/".
Proof.
  intros Hpath Hclean Hc Hres Hrand.
  destruct (rem_index_in_range rand_Int result Hres Hrand) as [Hlo [tgt Htgt]].
  assert (Hsplit : exists tail,
             strings.Split (url.Path (http.URL r)) "/" = "" :: svc :: tail
             /\ strings.Join tail "/" = "").
  { destruct Hpath as [-> | ->].
    - exists []. split; [| reflexivity].
      unfold strings.Split.
      change (strings.split_from "/" "" ("/" +:+ svc))
        with ("" :: strings.split_from "/" "" svc).
      now rewrite (split_from_one_piece "/" "" svc Hclean).
    - exists [""]. split; [| reflexivity].
      exact (Split_service_path svc "" Hclean). }
  destruct Hsplit as (tail & Hsplit & Hjoin).
  assert (Hne : url.Path (http.URL r) <> "").
  { intros E. rewrite E in Hsplit. discriminate. }
  eexists. split.
  - now rewrite (director_routes client rand_Int r "" svc tail result tgt
                   Hne Hsplit Hc Hlo Htgt).
  - simpl. now rewrite Hjoin.
Qed.

Lemma director_empty_remainder_witness :
  exists r',
    outcome (director orders_registry 4711 (get "/orders")) = Done r' /\
    url.Path (http.URL r') = "/".
Proof.
  apply (director_empty_remainder orders_registry 4711 (get "/orders") "orders"
           [api.mkCatalogService "i1" "10.0.0.5" 9090]);
    [left; reflexivity | reflexivity | reflexivity | discriminate | lia].
Defined.

(** ** The error hook, branch by branch *)

Lemma errFunc_cases (client : api.Client) (w : http.ResponseWriter)
    (r : http.Request) (err : error) :
  errFunc client w r err = ([], Done w) \/
  errFunc client w r err = ([], Panicked (IndexOutOfRange 1 1)) \/
  exists svc,
    serviceNameOf (url.Path (http.URL r)) = Some svc /\
    ((exists text,
        errFunc client w r err
        = ([Queried svc "";
            Logged ["reverseProxy failed"; "query service instance error"; text]],
           Done w)) \/
     (client svc "" = ([], None) /\
      errFunc client w r err
      = ([Queried svc ""],
         Done (http.Error w (svc +:+ " Not Found") 404))) \/
     errFunc client w r err = ([Queried svc ""], Panicked NilDereference)).
Proof.
  destruct (String.eqb_spec (url.Path (http.URL r)) "") as [Hempty|Hne].
  { left. exact (errFunc_empty_path client w r err Hempty). }
  destruct (strings.ContainsByte (url.Path (http.URL r)) "/") eqn:Hslash.
  - right. right. destruct (serviceNameOf_Some _ Hslash) as [svc Hsvc].
    exists svc. split; [exact Hsvc |].
    destruct (client svc "") as [result [text|]] eqn:Hc.
    + left. exists text.
      exact (errFunc_registry_error client w r err svc text result Hsvc Hc).
    + destruct result as [|inst result'].
      * right. left. split; [reflexivity |].
        exact (errFunc_no_instance client w r err svc Hsvc Hc).
      * right. right.
        apply (errFunc_instances client w r err svc (inst :: result') Hsvc Hc).
        discriminate.
  - right. left. destruct (serviceNameOf_None _ Hslash) as [Hsplit Hsvc].
    rewrite (errFunc_one_piece client w r err Hne Hsvc). now rewrite Hsplit.
Qed.

(** What a run of the director emits. *)
Lemma director_effects (client : api.Client) (rand_Int : Z) (r : http.Request) :
  (queries (events (director client rand_Int r)) <= 1)%nat /\
  dials (events (director client rand_Int r)) = 0%nat /\
  only (fun e => is_Logged e || is_untagged_query e) (director client rand_Int r).
Proof.
  destruct (String.eqb_spec (url.Path (http.URL r)) "") as [Hempty|Hne].
  { rewrite (director_empty_path client rand_Int r Hempty).
    split; [vm_compute; lia | split; reflexivity]. }
  destruct (serviceNameOf (url.Path (http.URL r))) as [svc|] eqn:Hsvc.
  - destruct (director_cases client rand_Int r svc Hsvc)
      as [[text E] | [E | [(tgt & _ & _ & E) | (i & n & _ & E)]]];
      rewrite E; (split; [vm_compute; lia | split; reflexivity]).
  - rewrite (director_one_piece client rand_Int r Hne Hsvc).
    split; [vm_compute; lia | split; reflexivity].
Qed.

(** What a run of the error hook emits. *)
Lemma errFunc_effects (client : api.Client) (w : http.ResponseWriter)
    (r : http.Request) (err : error) :
  (queries (events (errFunc client w r err)) <= 1)%nat /\
  dials (events (errFunc client w r err)) = 0%nat /\
  only (fun e => is_Logged e || is_untagged_query e) (errFunc client w r err).
Proof.
  destruct (errFunc_cases client w r err)
    as [E | [E | (svc & _ & [[text E] | [[_ E] | E]])]];
    rewrite E; (split; [vm_compute; lia | split; reflexivity]).
Qed.

(** X7. Neither hook asks the registry more than once in a run, every query
    it sends carries the empty tag, and apart from queries the hooks only
    write log records: they open no exchange themselves. *)
Theorem hooks_ask_registry_at_most_once
    (client : api.Client) (rand_Int : Z) (w : http.ResponseWriter)
    (err : error) (r : http.Request) :
  (queries (events (director client rand_Int r)) <= 1)%nat /\
  only (fun e => is_Logged e || is_untagged_query e) (director client rand_Int r) /\
  (queries (events (errFunc client w r err)) <= 1)%nat /\
  only (fun e => is_Logged e || is_untagged_query e) (errFunc client w r err).
Proof.
  destruct (director_effects client rand_Int r) as (Hd1 & _ & Hd2).
  destruct (errFunc_effects client w r err) as (He1 & _ & He2).
  now repeat split.
Qed.

(** X8. The only reply the error hook ever writes is the 404 for a service
    without instances: whenever it returns, the writer is as it was, or it
    is [http.Error(w, svc + " Not Found", 404)] for the service the path
    names; on a writer without status line it never leaves another status,
    so never 500. *)
Theorem errFunc_replies_only_404
    (client : api.Client) (w w' : http.ResponseWriter) (r : http.Request)
    (err : error) :
  outcome (errFunc client w r err) = Done w' ->
  (w' = w \/
   exists svc,
     serviceNameOf (url.Path (http.URL r)) = Some svc /\
     client svc "" = ([], None) /\
     w' = http.Error w (svc +:+ " Not Found") 404) /\
  (http.wStatus w = None ->
   http.wStatus w' = None \/ http.wStatus w' = Some 404).
Proof.
  intros Hout.
  assert (H : w' = w \/
              exists svc,
                serviceNameOf (url.Path (http.URL r)) = Some svc /\
                client svc "" = ([], None) /\
                w' = http.Error w (svc +:+ " Not Found") 404).
  { destruct (errFunc_cases client w r err)
      as [E | [E | (svc & Hsvc & [[text E] | [[Hc E] | E]])]];
      rewrite E in Hout; simpl in Hout; try discriminate.
    - left. now injection Hout.
    - left. now injection Hout.
    - right. exists svc. injection Hout as <-. now repeat split. }
  split; [exact H |].
  intros Hw. destruct H as [-> | (svc & _ & _ & ->)].
  - now left.
  - right. now apply Error_status.
Qed.

Lemma errFunc_replies_only_404_witness :
  (http.Error http.NewResponseWriter ("users" +:+ " Not Found") 404
   = http.NewResponseWriter \/
   exists svc,
     serviceNameOf (url.Path (http.URL (get "/users/5"))) = Some svc /\
     orders_registry svc "" = ([], None) /\
     http.Error http.NewResponseWriter ("users" +:+ " Not Found") 404
     = http.Error http.NewResponseWriter (svc +:+ " Not Found") 404) /\
  (http.wStatus http.NewResponseWriter = None ->
   http.wStatus (http.Error http.NewResponseWriter ("users" +:+ " Not Found") 404)
   = None \/
   http.wStatus (http.Error http.NewResponseWriter ("users" +:+ " Not Found") 404)
   = Some 404).
Proof.
  exact (errFunc_replies_only_404 orders_registry http.NewResponseWriter _
           (get "/users/5") (Some "connection refused") eq_refl).
Defined.

(** X9. When the second registry query itself fails, the error hook writes
    nothing: it returns the writer as it was, after the query and one log
    record with the text of the registry error, whatever instances came
    with the error and whatever the error of the exchange was. *)
Theorem errFunc_registry_error_writes_nothing
    (client : api.Client) (w : http.ResponseWriter) (r : http.Request)
    (err : error) (svc text : string) (result : list api.CatalogService) :
  serviceNameOf (url.Path (http.URL r)) = Some svc ->
  client svc "" = (result, Some text) ->
  outcome (errFunc client w r err) = Done w /\
  events (errFunc client w r err)
  = [Queried svc "";
     Logged ["reverseProxy failed"; "query service instance error"; text]].
Proof.
  intros Hsvc Hc.
  now rewrite (errFunc_registry_error client w r err svc text result Hsvc Hc).
Qed.

Lemma errFunc_registry_error_writes_nothing_witness :
  outcome (errFunc unreachable_registry http.NewResponseWriter
             (get "/orders/1") (Some "EOF"))
  = Done http.NewResponseWriter /\
  events (errFunc unreachable_registry http.NewResponseWriter
            (get "/orders/1") (Some "EOF"))
  = [Queried "orders" "";
     Logged ["reverseProxy failed"; "query service instance error";
             "connection refused"]].
Proof.
  apply (errFunc_registry_error_writes_nothing unreachable_registry
           http.NewResponseWriter (get "/orders/1") (Some "EOF")
           "orders" "connection refused" []);
    reflexivity.
Defined.

(** ** The response hook *)

(** X10. When the body of the response cannot be read to its end, the
    response hook returns the error of the read and leaves the status, the
    field ContentLength and every header, Content-Length included, as they
    were. *)
Theorem modifyFunc_read_error (resp : http.Response) (text : string) :
  ioutil.failure (http.Body resp) = Some text ->
  snd (modifyFunc resp) = Some text /\
  http.StatusCode (fst (modifyFunc resp)) = http.StatusCode resp /\
  http.ContentLength (fst (modifyFunc resp)) = http.ContentLength resp /\
  http.ResponseHeader (fst (modifyFunc resp)) = http.ResponseHeader resp.
Proof.
  intros H. unfold modifyFunc. rewrite status_condition_true.
  unfold rewrite_branch, ioutil.ReadAll. rewrite H. now repeat split.
Qed.

Lemma modifyFunc_read_error_witness :
  snd (modifyFunc broken_body) = Some "unexpected EOF" /\
  http.StatusCode (fst (modifyFunc broken_body)) = http.StatusCode broken_body /\
  http.ContentLength (fst (modifyFunc broken_body))
  = http.ContentLength broken_body /\
  http.ResponseHeader (fst (modifyFunc broken_body))
  = http.ResponseHeader broken_body.
Proof.
  apply (modifyFunc_read_error broken_body "unexpected EOF"). reflexivity.
Defined.

(** X11. The response hook is idempotent: run on the response it left, it
    leaves the same response and returns the same error. *)
Theorem modifyFunc_idempotent (resp : http.Response) :
  modifyFunc (fst (modifyFunc resp)) = modifyFunc resp.
Proof.
  unfold modifyFunc. rewrite !status_condition_true.
  destruct (ioutil.failure (http.Body resp)) as [text|] eqn:H.
  - unfold rewrite_branch, ioutil.ReadAll. rewrite H. reflexivity.
  - rewrite (rewrite_branch_readable resp H). cbn [fst].
    rewrite rewrite_branch_readable by reflexivity. simpl.
    unfold Header_Set. now rewrite insert_insert_eq.
Qed.

(** X12. For every response the response hook keeps the status code and
    every header other than Content-Length, and the error it returns is the
    error of the body stream, nil when the stream ends well. *)
Theorem modifyFunc_frame (resp : http.Response) :
  http.StatusCode (fst (modifyFunc resp)) = http.StatusCode resp /\
  (forall key, key <> "Content-Length" ->
     http.ResponseHeader (fst (modifyFunc resp)) !! key
     = http.ResponseHeader resp !! key) /\
  snd (modifyFunc resp) = ioutil.failure (http.Body resp).
Proof.
  unfold modifyFunc. rewrite status_condition_true.
  destruct (ioutil.failure (http.Body resp)) as [text|] eqn:H.
  - unfold rewrite_branch, ioutil.ReadAll. rewrite H. now repeat split.
  - rewrite (rewrite_branch_readable resp H). simpl. repeat split.
    intros key Hkey. unfold Header_Set. now apply lookup_insert_ne.
Qed.

(** ** The hooks chained by the proxy *)

Lemma bind_done {A B} (t : list event) (a : A) (k : A -> M B) :
  bind (t, Done a) k = (t ++ events (k a), outcome (k a)).
Proof. unfold bind, events, outcome. now destruct (k a). Qed.






(** The proxy after a director that left the request alone, for a request
    the transport refuses: the error hook runs on that request. *)
Lemma ServeHTTP_unrouted (at_routing at_error : api.Client) (rand_Int : Z)
    (backend : http.Request -> http.Response + string)
    (Quote : string -> string)
    (rw : http.ResponseWriter) (r : http.Request) (t : list event) :
  director at_routing rand_Int r = (t, Done r) ->
  (url.Scheme (http.URL r) <> "http" /\ url.Scheme (http.URL r) <> "https")
  \/ url.Host (http.URL r) = "" ->
  exists text,
    ServeHTTP at_routing at_error rand_Int backend Quote rw r
    = (t ++ events (errFunc at_error rw r (Some text)),
       outcome (errFunc at_error rw r (Some text))).
Proof.
  intros Hd Hurl.
  destruct (RoundTrip_refuses backend Quote r Hurl) as [text Hrt].
  exists text. unfold ServeHTTP.
  now rewrite Hd, bind_done, Hrt, bind_ret.
Qed.

(** X14. A request whose URL has no http(s) scheme or no host, for a service
    of which the registry knows no instance, at the director's query and at
    the error hook's, is answered 404 with the body "svc Not Found" and a
    newline, and no exchange is opened. *)
Theorem ServeHTTP_unknown_service_404
    (at_routing at_error : api.Client) (rand_Int : Z)
    (backend : http.Request -> http.Response + string)
    (Quote : string -> string)
    (rw : http.ResponseWriter) (r : http.Request) (svc : string) :
  (url.Scheme (http.URL r) <> "http" /\ url.Scheme (http.URL r) <> "https")
  \/ url.Host (http.URL r) = "" ->
  serviceNameOf (url.Path (http.URL r)) = Some svc ->
  at_routing svc "" = ([], None) ->
  at_error svc "" = ([], None) ->
  http.wStatus rw = None ->
  exists rw',
    outcome (ServeHTTP at_routing at_error rand_Int backend Quote rw r) = Done rw' /\
    http.wStatus rw' = Some 404 /\
    http.wBody rw' = http.wBody rw +:+ (svc +:+ " Not Found") +:+ String "010" "" /\
    dials (events (ServeHTTP at_routing at_error rand_Int backend Quote rw r)) = 0%nat /\
    queries (events (ServeHTTP at_routing at_error rand_Int backend Quote rw r)) = 2%nat.
Proof.
  intros Hurl Hsvc Hc1 Hc2 Hw.
  pose proof (serviceNameOf_nonempty _ _ Hsvc) as Hne.
  pose proof (director_no_instance at_routing rand_Int r svc Hne Hsvc Hc1) as Hd.
  destruct (ServeHTTP_unrouted at_routing at_error rand_Int backend Quote rw r _
              Hd Hurl) as [text ->].
  rewrite (errFunc_no_instance at_error rw r (Some text) svc Hsvc Hc2).
  eexists. split; [reflexivity |].
  rewrite (Error_status rw _ 404 Hw), Error_body. now repeat split.
Qed.

Lemma ServeHTTP_unknown_service_404_witness :
  exists rw',
    outcome (ServeHTTP empty_registry empty_registry 4711 hello_backend id
               http.NewResponseWriter (get "/orders/123")) = Done rw' /\
    http.wStatus rw' = Some 404 /\
    http.wBody rw' = "" +:+ ("orders" +:+ " Not Found") +:+ String "010" "" /\
    dials (events (ServeHTTP empty_registry empty_registry 4711 hello_backend id
                     http.NewResponseWriter (get "/orders/123"))) = 0%nat /\
    queries (events (ServeHTTP empty_registry empty_registry 4711 hello_backend id
                       http.NewResponseWriter (get "/orders/123"))) = 2%nat.
Proof.
  apply (ServeHTTP_unknown_service_404 empty_registry empty_registry 4711
           hello_backend id http.NewResponseWriter (get "/orders/123") "orders");
    [right; reflexivity | reflexivity | reflexivity | reflexivity | reflexivity].
Defined.



(** X16. When the registry fails at the director's query and again at the
    error hook's, a request whose URL has no http(s) scheme or no host gets
    no reply from the hooks: the writer is returned as it was, and no
    exchange is opened. *)
Theorem ServeHTTP_registry_down_writes_nothing
    (at_routing at_error : api.Client) (rand_Int : Z)
    (backend : http.Request -> http.Response + string)
    (Quote : string -> string)
    (rw : http.ResponseWriter) (r : http.Request)
    (svc text1 text2 : string) (result1 result2 : list api.CatalogService) :
  (url.Scheme (http.URL r) <> "http" /\ url.Scheme (http.URL r) <> "https")
  \/ url.Host (http.URL r) = "" ->
  serviceNameOf (url.Path (http.URL r)) = Some svc ->
  at_routing svc "" = (result1, Some text1) ->
  at_error svc "" = (result2, Some text2) ->
  outcome (ServeHTTP at_routing at_error rand_Int backend Quote rw r) = Done rw /\
  dials (events (ServeHTTP at_routing at_error rand_Int backend Quote rw r)) = 0%nat.
Proof.
  intros Hurl Hsvc Hc1 Hc2.
  pose proof (serviceNameOf_nonempty _ _ Hsvc) as Hne.
  pose proof (director_registry_error at_routing rand_Int r svc text1 result1
                Hne Hsvc Hc1) as Hd.
  destruct (ServeHTTP_unrouted at_routing at_error rand_Int backend Quote rw r _
              Hd Hurl) as [text ->].
  now rewrite (errFunc_registry_error at_error rw r (Some text) svc text2 result2
                 Hsvc Hc2).
Qed.

Lemma ServeHTTP_registry_down_writes_nothing_witness :
  outcome (ServeHTTP unreachable_registry unreachable_registry 4711
             hello_backend id http.NewResponseWriter (get "/orders/1"))
  = Done http.NewResponseWriter /\
  dials (events (ServeHTTP unreachable_registry unreachable_registry 4711
                   hello_backend id http.NewResponseWriter (get "/orders/1")))
  = 0%nat.
Proof.
  apply (ServeHTTP_registry_down_writes_nothing unreachable_registry
           unreachable_registry 4711 hello_backend id http.NewResponseWriter
           (get "/orders/1") "orders" "connection refused" "connection refused"
           [] []);
    [right; reflexivity | reflexivity | reflexivity | reflexivity].
Defined.

Lemma queries_app (t u : list event) : queries (t ++ u) = (queries t + queries u)%nat.
Proof. unfold queries. now rewrite List.filter_app, length_app. Qed.

Lemma dials_app (t u : list event) : dials (t ++ u) = (dials t + dials u)%nat.
Proof. unfold dials. now rewrite List.filter_app, length_app. Qed.

(** The transport either refuses the request or dials once. *)
Lemma RoundTrip_cases (backend : http.Request -> http.Response + string)
    (Quote : string -> string) (r : http.Request) :
  (exists text, RoundTrip backend Quote r = ([], Done (inr text))) \/
  RoundTrip backend Quote r
  = ([Dialed (url.Scheme (http.URL r)) (url.Host (http.URL r))
        (url.Path (http.URL r))],
     Done (backend r)).
Proof.
  unfold RoundTrip.
  destruct (negb _).
  - left. now eexists.
  - destruct (String.eqb _ _).
    + left. now eexists.
    + right. reflexivity.
Qed.

(** X17. For one request the proxy opens at most one exchange and asks the
    registry at most twice, once in the director and once in the error
    hook: a failed exchange is not tried again with another instance. *)
Theorem ServeHTTP_never_retries
    (at_routing at_error : api.Client) (rand_Int : Z)
    (backend : http.Request -> http.Response + string)
    (Quote : string -> string)
    (rw : http.ResponseWriter) (r : http.Request) :
  (dials (events (ServeHTTP at_routing at_error rand_Int backend Quote rw r)) <= 1)%nat /\
  (queries (events (ServeHTTP at_routing at_error rand_Int backend Quote rw r)) <= 2)%nat.
Proof.
  destruct (director_effects at_routing rand_Int r) as (Hq & Hdial & _).
  unfold ServeHTTP.
  destruct (director at_routing rand_Int r) as [t [outreq|p]] eqn:Hd;
    cbn [events fst] in Hq, Hdial.
  2: { cbn [bind events fst]. lia. }
  rewrite bind_done. cbn [events fst]. rewrite dials_app, queries_app.
  assert (Herr : forall err,
             dials (events (errFunc at_error rw outreq err)) = 0%nat /\
             (queries (events (errFunc at_error rw outreq err)) <= 1)%nat).
  { intros err. destruct (errFunc_effects at_error rw outreq err) as (H1 & H2 & _).
    now split. }
  destruct (RoundTrip_cases backend Quote outreq) as [[text ->] | ->].
  - rewrite bind_done. cbn [events outcome fst snd app].
    destruct (Herr (Some text)). lia.
  - rewrite bind_done. cbn [events fst]. rewrite dials_app, queries_app.
    change (dials [Dialed (url.Scheme (http.URL outreq))
                     (url.Host (http.URL outreq)) (url.Path (http.URL outreq))])
      with 1%nat.
    change (queries [Dialed (url.Scheme (http.URL outreq))
                       (url.Host (http.URL outreq)) (url.Path (http.URL outreq))])
      with 0%nat.
    destruct (backend outreq) as [res|text].
    + destruct (modifyFunc res) as [res' [text|]]; cbn [not_nil].
      * destruct (Herr (Some text)). lia.
      * cbn. lia.
    + destruct (Herr (Some text)). lia.
Qed.
